(** * TrackVis (TRK) streamlines codec of nibabel: a shallow embedding

    The development follows [nibabel/streamlines/trk.py]:
    - the two header layouts [header_1_dtd] and [header_2_dtd] and their
      decoding with [np.fromstring], for either byte order;
    - [TrkReader] ([__init__] and the generator [__iter__]);
    - [TrkWriter] ([create_empty_header], [__init__] and [write]);
    - [TrkFile] ([is_correct_format], [load] and [save]).

    File objects are byte lists with a cursor, threaded explicitly through
    every operation.  Exceptions are values of [exn]; float32 values are
    [spec_float]s at precision 24, so [/], [*], [+] and [-] on them round as
    numpy's float32 operations do. *)

From Stdlib Require Import ZArith List Lia Bool.
From Stdlib Require Import Floats.SpecFloat.
From Stdlib Require Import Strings.Byte.
From stdpp Require Import base gmap list option.

Open Scope Z_scope.

(** ** Exceptions and results *)

(** The exceptions the module raises itself ([HeaderError], [DataError],
    [ValueError] in [load]) and the ones that reach the caller from the
    interpreter, [struct], numpy and the file object. *)
Inductive exn :=
  | HeaderError
  | DataError
  | ValueError
  | TypeError
  | KeyError
  | IndexError
  | IOError
  | ZeroDivisionError
  | struct_error.

Inductive res (A : Type) :=
  | Return (a : A)
  | Raise (e : exn).
Arguments Return {A} a.
Arguments Raise {A} e.

#[global] Instance res_ret : MRet res := fun A a => Return a.

#[global] Instance res_bind : MBind res := fun A B k x =>
  match x with
  | Return a => k a
  | Raise e => Raise e
  end.

(** ** Bytes and byte order *)

Definition byte_to_Z (b : byte) : Z := Z.of_N (Byte.to_N b).

Definition byte_of_Z (z : Z) : byte :=
  default x00 (Byte.of_N (Z.to_N (z mod 256))).

(** numpy's byte-order characters: ['<'] and ['>']. *)
Inductive byte_order := LittleEndian | BigEndian.

Definition swap_order (e : byte_order) : byte_order :=
  match e with
  | LittleEndian => BigEndian
  | BigEndian => LittleEndian
  end.

(** [nibabel.volumeutils.swapped_code], for a machine whose
    [native_code] is [native]. *)
Definition swapped_code (native : byte_order) : byte_order := swap_order native.

Fixpoint le_decode (bs : list byte) : Z :=
  match bs with
  | [] => 0
  | b :: r => byte_to_Z b + 256 * le_decode r
  end.

Fixpoint le_encode (n : nat) (z : Z) : list byte :=
  match n with
  | O => []
  | S n' => byte_of_Z z :: le_encode n' (z / 256)
  end.

Definition in_order (e : byte_order) (bs : list byte) : list byte :=
  match e with
  | LittleEndian => bs
  | BigEndian => rev bs
  end.

Definition decode_unsigned (e : byte_order) (bs : list byte) : Z :=
  le_decode (in_order e bs).

(** Two's complement reading of a [w]-bit pattern. *)
Definition to_signed (w : Z) (u : Z) : Z :=
  if u <? 2 ^ (w - 1) then u else u - 2 ^ w.

Definition decode_int (e : byte_order) (bs : list byte) : Z :=
  to_signed (8 * Z.of_nat (length bs)) (decode_unsigned e bs).

(** The low [8 * n] bits of [z], in the byte order [e]: what numpy stores
    when an integer is cast to an [n]-byte field. *)
Definition encode_int (e : byte_order) (n : nat) (z : Z) : list byte :=
  in_order e (le_encode n z).

(** ** float32 *)

Definition f4_prec : Z := 24.
Definition f4_emax : Z := 128.

Definition f4_div := SFdiv f4_prec f4_emax.
Definition f4_mul := SFmul f4_prec f4_emax.
Definition f4_add := SFadd f4_prec f4_emax.
Definition f4_sub := SFsub f4_prec f4_emax.

(** The float32 nearest to an integer. *)
Definition f4_of_Z (z : Z) : spec_float :=
  binary_normalize f4_prec f4_emax z 0 false.

Definition sign_bit (s : bool) : Z := if s then 2 ^ 31 else 0.

(** IEEE 754 binary32 interchange format.  [spec_float] has one NaN, so
    payloads are not kept; [bits_of_f4] emits the quiet NaN. *)
Definition f4_of_bits (w : Z) : spec_float :=
  let s := Z.testbit w 31 in
  let e := (w / 2 ^ 23) mod 2 ^ 8 in
  let m := w mod 2 ^ 23 in
  if e =? 0 then
    (if m =? 0 then S754_zero s else S754_finite s (Z.to_pos m) (-149))
  else if e =? 255 then
    (if m =? 0 then S754_infinity s else S754_nan)
  else S754_finite s (Z.to_pos (m + 2 ^ 23)) (e - 150).

Definition bits_of_f4 (x : spec_float) : Z :=
  match x with
  | S754_zero s => sign_bit s
  | S754_infinity s => sign_bit s + 255 * 2 ^ 23
  | S754_nan => 255 * 2 ^ 23 + 2 ^ 22
  | S754_finite s m e =>
      sign_bit s +
      (if Z.pos m <? 2 ^ 23 then Z.pos m
       else (e + 150) * 2 ^ 23 + (Z.pos m - 2 ^ 23))
  end.

Definition decode_f4 (e : byte_order) (bs : list byte) : spec_float :=
  f4_of_bits (decode_unsigned e bs).

Definition encode_f4 (e : byte_order) (x : spec_float) : list byte :=
  encode_int e 4 (bits_of_f4 x).

#[global] Instance byte_eq_dec : EqDecision byte.
Proof.
  intros a b. destruct (decide (Byte.to_N a = Byte.to_N b)) as [E|E].
  - left. apply (f_equal Byte.of_N) in E.
    rewrite !Byte.of_to_N in E. congruence.
  - right. congruence.
Defined.

#[global] Instance spec_float_eq_dec : EqDecision spec_float.
Proof. solve_decision. Defined.

(** ** File objects

    An open binary file: its bytes and the cursor.  [Opener] hands such an
    object through unchanged and leaves it open, so the cursor a method
    leaves behind is the one the next method finds. *)

Record fileobj := FileObj { contents : list byte; position : Z }.

Inductive whence := SEEK_SET | SEEK_CUR.

Definition tell (f : fileobj) : Z := position f.

Definition remaining (f : fileobj) : list byte :=
  drop (Z.to_nat (position f)) (contents f).

(** [f.read(n)]: at most [n] bytes, fewer at the end of the file; all the
    rest when [n] is negative. *)
Definition read (n : Z) (f : fileobj) : list byte * fileobj :=
  let got := if n <? 0 then remaining f else take (Z.to_nat n) (remaining f) in
  (got, FileObj (contents f) (position f + Z.of_nat (length got))).

(** [f.seek(offset, whence)].  A cursor before the start of the file is
    refused, as the operating system does. *)
Definition seek (offset : Z) (w : whence) (f : fileobj) : res fileobj :=
  let target :=
    match w with
    | SEEK_SET => offset
    | SEEK_CUR => position f + offset
    end in
  if target <? 0 then Raise IOError else Return (FileObj (contents f) target).

(** [f.write(bs)]: overwrites from the cursor on and extends the file; a
    gap left by a seek past the end reads as zeros. *)
Definition write (bs : list byte) (f : fileobj) : fileobj :=
  let p := Z.to_nat (position f) in
  let old := contents f in
  FileObj (take p old ++ replicate (p - length old)%nat x00 ++ bs
             ++ drop (p + length bs)%nat old)
          (position f + Z.of_nat (length bs)).

(** ** Header layouts *)

(** The field names of the two layouts.  Those written [Field.X] in the
    source are constants of [nibabel.streamlines.header], the others are
    string literals; numpy refuses a layout with a repeated name, so the
    names of [header_2_dtd] are pairwise distinct. *)
Module Field.
Inductive t :=
  | MAGIC_NUMBER | DIMENSIONS | VOXEL_SIZES | ORIGIN
  | NB_SCALARS_PER_POINT | scalar_name
  | NB_PROPERTIES_PER_STREAMLINE | property_name
  | to_world_space | reserved | VOXEL_ORDER | pad2
  | image_orientation_patient | pad1
  | invert_x | invert_y | invert_z | swap_xy | swap_yz | swap_zx
  | NB_STREAMLINES | version | hdr_size.

Definition index (k : t) : nat :=
  match k with
  | MAGIC_NUMBER => 0 | DIMENSIONS => 1 | VOXEL_SIZES => 2 | ORIGIN => 3
  | NB_SCALARS_PER_POINT => 4 | scalar_name => 5
  | NB_PROPERTIES_PER_STREAMLINE => 6 | property_name => 7
  | to_world_space => 8 | reserved => 9 | VOXEL_ORDER => 10 | pad2 => 11
  | image_orientation_patient => 12 | pad1 => 13
  | invert_x => 14 | invert_y => 15 | invert_z => 16
  | swap_xy => 17 | swap_yz => 18 | swap_zx => 19
  | NB_STREAMLINES => 20 | version => 21 | hdr_size => 22
  end%nat.

Definition all : list t :=
  [MAGIC_NUMBER; DIMENSIONS; VOXEL_SIZES; ORIGIN; NB_SCALARS_PER_POINT;
   scalar_name; NB_PROPERTIES_PER_STREAMLINE; property_name; to_world_space;
   reserved; VOXEL_ORDER; pad2; image_orientation_patient; pad1;
   invert_x; invert_y; invert_z; swap_xy; swap_yz; swap_zx;
   NB_STREAMLINES; version; hdr_size].
End Field.

#[global] Instance Field_eq_dec : EqDecision Field.t.
Proof. solve_decision. Defined.

#[global] Instance Field_countable : Countable Field.t.
Proof.
  refine (inj_countable' Field.index
            (fun n => default Field.hdr_size (Field.all !! n)) _).
  intros []; reflexivity.
Defined.

(** numpy type codes used by the layouts: ['Sn'], ['h'], ['f4'], ['i4']. *)
Inductive dtype_code := dS (n : nat) | dh | df4 | di4.

(** One entry of a layout: name, type code, shape ([[]] for a scalar). *)
Definition descr : Type := Field.t * dtype_code * list nat.

Definition header_1_dtd : list descr :=
  [ (Field.MAGIC_NUMBER, dS 6, []);
    (Field.DIMENSIONS, dh, [3%nat]);
    (Field.VOXEL_SIZES, df4, [3%nat]);
    (Field.ORIGIN, df4, [3%nat]);
    (Field.NB_SCALARS_PER_POINT, dh, []);
    (Field.scalar_name, dS 20, [10%nat]);
    (Field.NB_PROPERTIES_PER_STREAMLINE, dh, []);
    (Field.property_name, dS 20, [10%nat]);
    (Field.reserved, dS 508, []);
    (Field.VOXEL_ORDER, dS 4, []);
    (Field.pad2, dS 4, []);
    (Field.image_orientation_patient, df4, [6%nat]);
    (Field.pad1, dS 2, []);
    (Field.invert_x, dS 1, []);
    (Field.invert_y, dS 1, []);
    (Field.invert_z, dS 1, []);
    (Field.swap_xy, dS 1, []);
    (Field.swap_yz, dS 1, []);
    (Field.swap_zx, dS 1, []);
    (Field.NB_STREAMLINES, di4, []);
    (Field.version, di4, []);
    (Field.hdr_size, di4, []) ].

Definition header_2_dtd : list descr :=
  [ (Field.MAGIC_NUMBER, dS 6, []);
    (Field.DIMENSIONS, dh, [3%nat]);
    (Field.VOXEL_SIZES, df4, [3%nat]);
    (Field.ORIGIN, df4, [3%nat]);
    (Field.NB_SCALARS_PER_POINT, dh, []);
    (Field.scalar_name, dS 20, [10%nat]);
    (Field.NB_PROPERTIES_PER_STREAMLINE, dh, []);
    (Field.property_name, dS 20, [10%nat]);
    (Field.to_world_space, df4, [4%nat; 4%nat]);
    (Field.reserved, dS 444, []);
    (Field.VOXEL_ORDER, dS 4, []);
    (Field.pad2, dS 4, []);
    (Field.image_orientation_patient, df4, [6%nat]);
    (Field.pad1, dS 2, []);
    (Field.invert_x, dS 1, []);
    (Field.invert_y, dS 1, []);
    (Field.invert_z, dS 1, []);
    (Field.swap_xy, dS 1, []);
    (Field.swap_yz, dS 1, []);
    (Field.swap_zx, dS 1, []);
    (Field.NB_STREAMLINES, di4, []);
    (Field.version, di4, []);
    (Field.hdr_size, di4, []) ].

Definition code_size (c : dtype_code) : nat :=
  match c with
  | dS n => n
  | dh => 2
  | df4 | di4 => 4
  end.

Definition shape_size (shape : list nat) : nat := foldr Nat.mul 1%nat shape.

Definition descr_size (d : descr) : nat :=
  let '(_, c, shape) := d in (code_size c * shape_size shape)%nat.

(** [np.dtype(dtd).itemsize] (packed, no alignment). *)
Definition itemsize (dtd : list descr) : nat :=
  foldr (fun d n => (descr_size d + n)%nat) 0%nat dtd.

(** [np.dtype(dtd).names] *)
Definition names (dtd : list descr) : list Field.t := map (fun d => d.1.1) dtd.

(** ** Values of header fields *)

Inductive scalar :=
  | Bytes (s : list byte)
  | Int (z : Z)
  | Float (x : spec_float).

(** A field holds a scalar or an array, kept flat in row-major order (its
    shape is the layout's). *)
Inductive value :=
  | Scalar (s : scalar)
  | Array (l : list scalar).

#[global] Instance scalar_eq_dec : EqDecision scalar.
Proof. solve_decision. Defined.

#[global] Instance value_eq_dec : EqDecision value.
Proof. solve_decision. Defined.

(** numpy returns an ['S'] item without its trailing NUL bytes. *)
Fixpoint rstrip_nul (bs : list byte) : list byte :=
  match bs with
  | [] => []
  | b :: r =>
      match rstrip_nul r with
      | [] => if decide (b = x00) then [] else [b]
      | r' => b :: r'
      end
  end.

(** [n] consecutive chunks of [k] bytes. *)
Fixpoint chunks (k n : nat) (bs : list byte) : list (list byte) :=
  match n with
  | O => []
  | S n' => take k bs :: chunks k n' (drop k bs)
  end.

Definition parse_scalar (e : byte_order) (c : dtype_code) (bs : list byte)
  : scalar :=
  match c with
  | dS _ => Bytes (rstrip_nul bs)
  | dh | di4 => Int (decode_int e bs)
  | df4 => Float (decode_f4 e bs)
  end.

Definition parse_value (e : byte_order) (c : dtype_code) (shape : list nat)
    (bs : list byte) : value :=
  match shape with
  | [] => Scalar (parse_scalar e c bs)
  | _ => Array (parse_scalar e c <$> chunks (code_size c) (shape_size shape) bs)
  end.

(** The items of one record, in layout order. *)
Fixpoint parse_items (e : byte_order) (dtd : list descr) (bs : list byte)
  : list value :=
  match dtd with
  | [] => []
  | (k, c, shape) :: rest =>
      let n := descr_size (k, c, shape) in
      parse_value e c shape (take n bs) :: parse_items e rest (drop n bs)
  end.

(** A numpy record (an [np.void]): a layout, a byte order for its numeric
    fields, and the raw bytes. *)
Record np_void := NpVoid {
  void_dtd : list descr;
  void_order : byte_order;
  void_data : list byte
}.

(** Iterating a record yields its items. *)
Definition void_items (v : np_void) : list value :=
  parse_items (void_order v) (void_dtd v) (void_data v).

(** [v.newbyteorder()]: the same bytes, every numeric field read in the
    other order. *)
Definition newbyteorder (v : np_void) : np_void :=
  NpVoid (void_dtd v) (swap_order (void_order v)) (void_data v).

(** [v[name]] *)
Definition void_field (v : np_void) (k : Field.t) : option value :=
  (list_to_map (zip (names (void_dtd v)) (void_items v)) : gmap Field.t value) !! k.

(** [np.fromstring(string, dtype)] for a record dtype in the byte order
    [e]: a one-dimensional array of records. *)
Definition fromstring (e : byte_order) (dtd : list descr) (s : list byte)
  : res (list np_void) :=
  if decide ((length s) `mod` (itemsize dtd) = 0)%nat
  then Return (NpVoid dtd e <$> chunks (itemsize dtd) (length s / itemsize dtd) s)
  else Raise ValueError.

(** [arr[name] == z], elementwise. *)
Definition field_equals (arr : list np_void) (k : Field.t) (z : Z) : list bool :=
  (fun v => bool_decide (void_field v k = Some (Scalar (Int z)))) <$> arr.

(** Truth value of a boolean array in an [if]: an empty array is false, a
    one-element array is its element, a longer one is ambiguous. *)
Definition truth (bs : list bool) : res bool :=
  match bs with
  | [] => Return false
  | [b] => Return b
  | _ => Raise ValueError
  end.

(** [arr[0]] *)
Definition item0 (arr : list np_void) : res np_void :=
  match arr with
  | [] => Raise IndexError
  | v :: _ => Return v
  end.

(** [dict(zip(names, items))] *)
Definition dict_zip (ks : list Field.t) (vs : list value) : gmap Field.t value :=
  list_to_map (zip ks vs).

(** ** Reading the header *)

(** Class constants of [TrkFile]. *)
Definition MAGIC_NUMBER : list byte := ["T"; "R"; "A"; "C"; "K"]%byte.
Definition HEADER_SIZE : Z := 1000.

(** [d[k]] on a dict *)
Definition getitem (d : gmap Field.t value) (k : Field.t) : res value :=
  match d !! k with
  | Some v => Return v
  | None => Raise KeyError
  end.

(** [d[k]] used as an integer *)
Definition getint (d : gmap Field.t value) (k : Field.t) : res Z :=
  v ← getitem d k;
  match v with
  | Scalar (Int z) => Return z
  | _ => Raise TypeError
  end.

(** [d[k]] used as an array of floats *)
Definition getfloats (d : gmap Field.t value) (k : Field.t)
  : res (list spec_float) :=
  v ← getitem d k;
  match v with
  | Array l =>
      mapM (M := res)
        (fun s => match s with Float x => Return x | _ => Raise TypeError end) l
  | _ => Raise TypeError
  end.

(** A streamline as the reader yields it: points, scalars, properties.
    Two-dimensional arrays are lists of rows; the Python list [[]] is the
    empty list. *)
Definition triple : Type :=
  list (list spec_float) * list (list spec_float) * list spec_float.

(** [np.ndarray(shape=(rows, cols), dtype=f4, buffer=buf)] in the byte
    order [e]: refuses a negative dimension and a buffer that is too
    small. *)
Definition ndarray (e : byte_order) (rows cols : Z) (buf : list byte)
  : res (list (list spec_float)) :=
  if (rows <? 0) || (cols <? 0) then Raise ValueError
  else if Z.of_nat (length buf) <? rows * cols * 4 then Raise TypeError
  else
    let c := Z.to_nat cols in
    Return ((fun row => decode_f4 e <$> chunks 4 c row)
              <$> chunks (4 * c) (Z.to_nat rows) buf).

(** [np.fromstring(s, dtype=f4, count=n)] *)
Definition fromstring_f4 (e : byte_order) (n : Z) (s : list byte)
  : res (list spec_float) :=
  if Z.of_nat (length s) <? n * 4 then Raise ValueError
  else Return (decode_f4 e <$> chunks 4 (Z.to_nat n) s).

(** [struct.unpack('<i', s)[0]] or [struct.unpack('>i', s)[0]] *)
Definition unpack_i (e : byte_order) (s : list byte) : res Z :=
  if decide (length s = 4%nat) then Return (decode_int e s)
  else Raise struct_error.

(** [a op v] for a two-dimensional [a] with [cols] columns and a
    one-dimensional [v], by numpy's broadcasting rule on the last axis;
    returns the number of columns of the result with it. *)
Definition broadcast (op : spec_float -> spec_float -> spec_float)
    (cols : nat) (a : list (list spec_float)) (v : list spec_float)
  : res (nat * list (list spec_float)) :=
  if decide (cols = length v) then
    Return (cols, (fun row : list spec_float => zip_with op row v) <$> a)
  else if decide (cols = 1%nat) then
    Return (length v,
            (fun row : list spec_float =>
               match row with
               | x :: _ => op x <$> v
               | [] => []
               end) <$> a)
  else if decide (length v = 1%nat) then
    Return (cols,
            (fun row : list spec_float =>
               match v with
               | y :: _ => (fun x => op x y) <$> row
               | [] => row
               end) <$> a)
  else Raise ValueError.

(** The in-place form [a op= v]: the result must have the shape of [a]. *)
Definition broadcast_inplace (op : spec_float -> spec_float -> spec_float)
    (cols : nat) (a : list (list spec_float)) (v : list spec_float)
  : res (list (list spec_float)) :=
  '(cols', a') ← broadcast op cols a v;
  if decide (cols' = cols) then Return a' else Raise ValueError.

(** [np.array(v) / 2.] *)
Definition halve (v : list spec_float) : list spec_float :=
  (fun x => f4_div x (f4_of_Z 2)) <$> v.

Module TrkReader.

(** The reader's attributes.  [fileobj] is the caller's file object: it is
    passed to and returned by each method. *)
Record t := Make {
  header : gmap Field.t value;
  endianness : byte_order;
  offset_data : Z
}.

(** [TrkReader(fileobj)] on a machine whose byte order is [native_code].
    The warning for an empty voxel order is not modelled, its default is. *)
Definition __init__ (native_code : byte_order) (f : fileobj) : res (t * fileobj) :=
  let '(header_str, f) := read (Z.of_nat (itemsize header_2_dtd)) f in
  header_rec ← fromstring native_code header_2_dtd header_str;
  is_v1 ← truth (field_equals header_rec Field.version 1);
  header_rec ←
    (if (is_v1 : bool) then fromstring native_code header_1_dtd header_str
     else
       is_v2 ← truth (field_equals header_rec Field.version 2);
       if (is_v2 : bool) then Return header_rec else Raise HeaderError);
  rec0 ← item0 header_rec;
  let header := dict_zip (names (void_dtd rec0)) (void_items rec0) in
  size ← getitem header Field.hdr_size;
  '(endianness, header) ←
    (if decide (size = Scalar (Int HEADER_SIZE)) then Return (native_code, header)
     else
       let header :=
         dict_zip (names (void_dtd rec0)) (void_items (newbyteorder rec0)) in
       size ← getitem header Field.hdr_size;
       if decide (size = Scalar (Int HEADER_SIZE))
       then Return (swapped_code native_code, header)
       else Raise HeaderError);
  order ← getitem header Field.VOXEL_ORDER;
  let header :=
    if decide (order = Scalar (Bytes []))
    then <[Field.VOXEL_ORDER := Scalar (Bytes ["L"; "P"; "S"]%byte)]> header
    else header in
  Return (Make header endianness (tell f), f).

(** One turn of the [while] loop of [__iter__], from the read of the point
    count to the [yield]: [None] is the [break] at the end of the file.
    [nb_scalars] and [nb_properties] are the header's counts, as
    captured before the loop. *)
Definition read_streamline (self : t) (nb_scalars nb_properties : Z)
    (f : fileobj) : res (option triple * fileobj) :=
  let nb_pts_and_scalars := 3 + nb_scalars in
  let pts_and_scalars_size := nb_pts_and_scalars * 4 in
  let properties_size := nb_properties * 4 in
  let '(nb_pts_str, f) := read 4 f in
  if decide (length nb_pts_str = 0%nat) then Return (None, f)
  else
    nb_pts ← unpack_i (endianness self) nb_pts_str;
    let '(buf, f) := read (nb_pts * pts_and_scalars_size) f in
    data ← ndarray (endianness self) nb_pts nb_pts_and_scalars buf;
    let '(cols, pts, scalars) :=
      if 0 <? nb_scalars then (3%nat, take 3 <$> data, drop 3 <$> data)
      else (Z.to_nat nb_pts_and_scalars, data, []) in
    '(properties, f) ←
      (if 0 <? nb_properties then
         let '(buf, f) := read properties_size f in
         properties ← fromstring_f4 (endianness self) nb_properties buf;
         Return (properties, f)
       else Return ([], f));
    voxel_sizes ← getfloats (header self) Field.VOXEL_SIZES;
    '(cols, pts) ← broadcast f4_div cols pts voxel_sizes;
    voxel_sizes ← getfloats (header self) Field.VOXEL_SIZES;
    pts ← broadcast_inplace f4_sub cols pts (halve voxel_sizes);
    Return (Some (pts, scalars, properties), f).

(** [while i < nb_streamlines], where [None] stands for [np.inf]. *)
Definition below (i : Z) (nb_streamlines : option Z) : bool :=
  match nb_streamlines with
  | None => true
  | Some n => i <? n
  end.

(** The [while] loop: the streamlines yielded, then the final [i] and
    file object, or the exception that ended the generator.  Every turn
    that goes on has read at least one byte, so the number of turns is
    bounded by the length of the file: [fuel] counts them, and [None] is
    its exhaustion (see [loop_fuel_enough]). *)
Fixpoint loop (fuel : nat) (self : t) (nb_scalars nb_properties : Z)
    (nb_streamlines : option Z) (i : Z) (f : fileobj)
  : option (list triple * res (Z * fileobj)) :=
  if below i nb_streamlines then
    match fuel with
    | O => None
    | S fuel' =>
        match read_streamline self nb_scalars nb_properties f with
        | Raise e => Some ([], Raise e)
        | Return (None, f') => Some ([], Return (i, f'))
        | Return (Some streamline, f') =>
            '(rest, out) ←
              loop fuel' self nb_scalars nb_properties nb_streamlines (i + 1) f';
            Some (streamline :: rest, out)
        end
    end
  else Some ([], Return (i, f)).

(** The bound of the loop: a count of zero in the header means that the
    count is not known, and the loop goes on to the end of the file. *)
Definition loop_bound (nb_streamlines : Z) : option Z :=
  if decide (nb_streamlines = 0) then None else Some nb_streamlines.

(** What precedes the loop in [__iter__]. *)
Definition prologue (self : t) (f : fileobj)
  : res (Z * Z * option Z * fileobj) :=
  nb_scalars ← getint (header self) Field.NB_SCALARS_PER_POINT;
  nb_properties ← getint (header self) Field.NB_PROPERTIES_PER_STREAMLINE;
  f ← seek (offset_data self) SEEK_SET f;
  nb_streamlines ← getint (header self) Field.NB_STREAMLINES;
  Return (nb_scalars, nb_properties, loop_bound nb_streamlines, f).

(** What follows the loop: the count is stored and the cursor moved. *)
Definition epilogue (self : t) (start_position i : Z) (f : fileobj)
  : res (t * fileobj) :=
  let self := Make (<[Field.NB_STREAMLINES := Scalar (Int i)]> (header self))
                   (endianness self) (offset_data self) in
  f ← seek start_position SEEK_CUR f;
  Return (self, f).

(** A full traversal of [iter(reader)]: the streamlines it yields, and how
    it ends: with the reader and the file object as the generator leaves
    them, or with an exception. *)
Definition __iter__ (self : t) (f : fileobj)
  : option (list triple * res (t * fileobj)) :=
  let start_position := tell f in
  match prologue self f with
  | Raise e => Some ([], Raise e)
  | Return (nb_scalars, nb_properties, nb_streamlines, f) =>
      '(streamlines, out) ←
        loop (S (length (contents f))) self nb_scalars nb_properties
          nb_streamlines 0 f;
      Some (streamlines, '(i, f) ← out; epilogue self start_position i f)
  end.

End TrkReader.

(** ** The streamlines container

    The container classes live in [nibabel.streamlines.base_format], outside
    this module; what follows is the part of them [trk.py] relies on. *)

Module StreamlinesHeader.

(** Modelled from the spec: the header metadata of the container (affine,
    voxel sizes, counts, raw extra fields), with the attributes [TrkWriter]
    reads and [TrkFile.load] sets. *)
Record t := Make {
  to_world_space : value;
  nb_streamlines : option Z;
  nb_scalars_per_point : Z;
  nb_properties_per_streamline : Z;
  voxel_sizes : list spec_float;
  voxel_order : list byte;
  extra : gmap Field.t value
}.

End StreamlinesHeader.

Module Streamlines.

(** Modelled from the spec: the in-memory container (point arrays, per-point
    scalars, per-streamline properties, header metadata). *)
Record t := Make {
  points : list (list (list spec_float));
  scalars : list (list (list spec_float));
  properties : list (list spec_float);
  header : StreamlinesHeader.t
}.

(** Modelled from the spec: the container's record sequence, one
    (points, scalars, properties) triple per streamline; a streamline
    without scalars or properties gets the empty list. *)
Fixpoint records (pts : list (list (list spec_float)))
    (scs : list (list (list spec_float))) (prs : list (list spec_float))
  : list triple :=
  match pts with
  | [] => []
  | p :: pts' => (p, default [] (head scs), default [] (head prs))
                   :: records pts' (tail scs) (tail prs)
  end.

Definition __iter__ (self : t) : list triple :=
  records (points self) (scalars self) (properties self).

End Streamlines.

Module LazyStreamlines.

(** Modelled from the spec: the reader exposed as a deferred sequence,
    nothing being read yet; the two flags record that [scalars] or
    [properties] were overwritten with the empty sequence. *)
Record t := Make {
  data : TrkReader.t;
  no_scalars : bool;
  no_properties : bool;
  header : StreamlinesHeader.t
}.

End LazyStreamlines.

(** ** Writing *)

(** The layout entry of a field of [header_2_dtype]. *)
Definition field_descr (k : Field.t) : option descr :=
  head (filter (fun d : descr => d.1.1 = k) header_2_dtd).

Definition cast_scalar (c : dtype_code) (s : scalar) : res scalar :=
  match c, s with
  | dS n, Bytes b => Return (Bytes (rstrip_nul (take n b)))
  | dh, Int z => Return (Int (to_signed 16 (z mod 2 ^ 16)))
  | di4, Int z => Return (Int (to_signed 32 (z mod 2 ^ 32)))
  | df4, Float x => Return (Float x)
  | df4, Int z => Return (Float (f4_of_Z z))
  | _, _ => Raise TypeError
  end.

(** [header[k] = v] on the one-record array of the writer: the value is
    cast to the type of the field (integers wrap, strings are cut), a
    scalar fills an array field, and an array must have the field's size. *)
Definition setfield (k : Field.t) (v : value) (hdr : gmap Field.t value)
  : res (gmap Field.t value) :=
  match field_descr k with
  | None => Raise ValueError
  | Some (_, c, shape) =>
      match shape, v with
      | [], Scalar s => s' ← cast_scalar c s; Return (<[k := Scalar s']> hdr)
      | [], Array _ => Raise ValueError
      | _, Scalar s =>
          s' ← cast_scalar c s;
          Return (<[k := Array (replicate (shape_size shape) s')]> hdr)
      | _, Array l =>
          if decide (length l = shape_size shape) then
            l' ← mapM (M := res) (cast_scalar c) l;
            Return (<[k := Array l']> hdr)
          else Raise ValueError
      end
  end.

Definition zero_scalar (c : dtype_code) : scalar :=
  match c with
  | dS _ => Bytes []
  | dh | di4 => Int 0
  | df4 => Float (S754_zero false)
  end.

Definition zero_value (c : dtype_code) (shape : list nat) : value :=
  match shape with
  | [] => Scalar (zero_scalar c)
  | _ => Array (replicate (shape_size shape) (zero_scalar c))
  end.

(** [np.zeros(1, dtype=dtd)], as the mapping from names to items of its
    one record. *)
Definition zeros (dtd : list descr) : gmap Field.t value :=
  list_to_map ((fun d : descr => (d.1.1, zero_value d.1.2 d.2)) <$> dtd).

Definition encode_scalar (e : byte_order) (c : dtype_code) (s : scalar)
  : list byte :=
  match c, s with
  | dS n, Bytes b => take n (b ++ replicate n x00)
  | dh, Int z => encode_int e 2 z
  | di4, Int z => encode_int e 4 z
  | df4, Float x => encode_f4 e x
  | _, _ => replicate (code_size c) x00
  end.

Definition encode_value (e : byte_order) (c : dtype_code) (shape : list nat)
    (v : option value) : list byte :=
  match v with
  | Some (Scalar s) => encode_scalar e c s
  | Some (Array l) => concat (encode_scalar e c <$> l)
  | None => replicate (code_size c * shape_size shape) x00
  end.

(** [header[0].tostring()]: the fields in layout order, numbers in the
    byte order [e].  Every field of a writer's header holds a value of its
    own type ([zeros], [setfield]). *)
Definition tostring (e : byte_order) (dtd : list descr)
    (hdr : gmap Field.t value) : list byte :=
  concat ((fun d : descr => encode_value e d.1.2 d.2 (hdr !! d.1.1)) <$> dtd).

Definition floats (l : list spec_float) : value := Array (Float <$> l).

(** [np.eye(4)] *)
Definition eye4 : value :=
  floats (f4_of_Z <$> [1; 0; 0; 0;  0; 1; 0; 0;  0; 0; 1; 0;  0; 0; 0; 1]).

(** [np.array(rows, dtype=f4)] for a list of rows: the number of columns;
    rows of different lengths are refused. *)
Definition array2d (rows : list (list spec_float)) : res nat :=
  match rows with
  | [] => Return 0%nat
  | r :: rest =>
      if forallb (fun r' : list spec_float => Nat.eqb (length r') (length r)) rest
      then Return (length r)
      else Raise ValueError
  end.

(** [np.array(scalars, dtype=f4).reshape((n, -1))] for scalars that are
    empty or have [n] rows: no unknown dimension can be found for [n = 0];
    an empty array becomes [n] empty rows. *)
Definition reshape_rows (n : nat) (scalars : list (list spec_float))
  : res (list (list spec_float)) :=
  if decide (n = 0%nat) then Raise ValueError
  else if decide (length scalars = 0%nat) then Return (replicate n [])
  else Return scalars.

(** [struct.pack('<i', n)] or [struct.pack('>i', n)] *)
Definition pack_i (e : byte_order) (n : Z) : res (list byte) :=
  if decide (- 2 ^ 31 <= n < 2 ^ 31) then Return (encode_int e 4 n)
  else Raise struct_error.

Module TrkWriter.

(** The writer's attributes; [file] is threaded through its methods. *)
Record t := Make {
  header : gmap Field.t value;
  nb_streamlines : Z;
  nb_points : Z;
  nb_scalars : Z;
  nb_properties : Z;
  beginning : Z
}.

Definition create_empty_header : res (gmap Field.t value) :=
  let header := zeros header_2_dtd in
  header ← setfield Field.MAGIC_NUMBER (Scalar (Bytes MAGIC_NUMBER)) header;
  header ← setfield Field.VOXEL_SIZES (floats (f4_of_Z <$> [1; 1; 1])) header;
  header ← setfield Field.DIMENSIONS (Array (Int <$> [1; 1; 1])) header;
  header ← setfield Field.to_world_space eye4 header;
  header ← setfield Field.version (Scalar (Int 2)) header;
  setfield Field.hdr_size (Scalar (Int HEADER_SIZE)) header.

(** [TrkWriter(fileobj, header)] on a machine whose byte order is
    [native_code]. *)
Definition __init__ (native_code : byte_order) (file : fileobj)
    (hdr : StreamlinesHeader.t) : res (t * fileobj) :=
  header ← create_empty_header;
  header ←
    foldr (fun kv acc =>
             header ← acc;
             if decide (kv.1 ∈ names header_2_dtd)
             then setfield kv.1 kv.2 header else Return header)
          (Return header)
          (map_to_list (StreamlinesHeader.extra hdr));
  header ← setfield Field.NB_STREAMLINES (Scalar (Int 0)) header;
  header ←
    match StreamlinesHeader.nb_streamlines hdr with
    | Some n => setfield Field.NB_STREAMLINES (Scalar (Int n)) header
    | None => Return header
    end;
  header ← setfield Field.NB_SCALARS_PER_POINT
             (Scalar (Int (StreamlinesHeader.nb_scalars_per_point hdr))) header;
  header ← setfield Field.NB_PROPERTIES_PER_STREAMLINE
             (Scalar (Int (StreamlinesHeader.nb_properties_per_streamline hdr)))
             header;
  header ← setfield Field.VOXEL_SIZES
             (floats (StreamlinesHeader.voxel_sizes hdr)) header;
  header ← setfield Field.to_world_space
             (StreamlinesHeader.to_world_space hdr) header;
  header ← setfield Field.VOXEL_ORDER
             (Scalar (Bytes (StreamlinesHeader.voxel_order hdr))) header;
  let beginning := tell file in
  let file := write (tostring native_code header_2_dtd header) file in
  Return (Make header 0 0 0 0 beginning, file).

(** One turn of the [for] loop of [write]. *)
Definition write_streamline (native_code : byte_order) (self : t)
    (file : fileobj) (streamline : triple) : res (t * fileobj) :=
  let '(points, scalars, properties) := streamline in
  if decide (0 < length scalars ∧ length scalars ≠ length points)%nat
  then Raise DataError
  else
    cols ← array2d points;
    scalar_cols ← array2d scalars;
    scalars ← reshape_rows (length points) scalars;
    voxel_sizes ← getfloats (header self) Field.VOXEL_SIZES;
    '(cols, points) ← broadcast f4_mul cols points voxel_sizes;
    voxel_sizes ← getfloats (header self) Field.VOXEL_SIZES;
    points ← broadcast_inplace f4_add cols points (halve voxel_sizes);
    count ← pack_i native_code (Z.of_nat (length points));
    let data :=
      count
      ++ concat ((fun row => concat (encode_f4 native_code <$> row))
                   <$> zip_with app points scalars)
      ++ concat (encode_f4 native_code <$> properties) in
    let file := write data file in
    Return (Make (header self)
                 (nb_streamlines self + 1)
                 (nb_points self + Z.of_nat (length points))
                 (nb_scalars self + Z.of_nat (length (concat scalars)))
                 (nb_properties self + Z.of_nat (length properties))
                 (beginning self),
            file).

(** The [for] loop of [write]; the file object is returned as the loop, or
    the exception that ends it, leaves it. *)
Fixpoint write_loop (native_code : byte_order) (self : t) (file : fileobj)
    (streamlines : list triple) : res t * fileobj :=
  match streamlines with
  | [] => (Return self, file)
  | streamline :: rest =>
      match write_streamline native_code self file streamline with
      | Raise e => (Raise e, file)
      | Return (self, file) => write_loop native_code self file rest
      end
  end.

(** What follows the loop: the two ratios, the two checks, and the header
    written again at [beginning].  The ratios are Python's true divisions
    of integers; the test [x != int(x)] on them is the test that the
    division is not exact (for totals below 2^53). *)
Definition finish (native_code : byte_order) (self : t) (file : fileobj)
  : res (t * fileobj) :=
  if decide (nb_points self = 0) then Raise ZeroDivisionError
  else if decide (nb_streamlines self = 0) then Raise ZeroDivisionError
  else if decide (nb_scalars self `mod` nb_points self ≠ 0)
  then Raise DataError
  else if decide (nb_properties self `mod` nb_streamlines self ≠ 0)
  then Raise DataError
  else
    let nb_scalars_per_point := nb_scalars self / nb_points self in
    let nb_properties_per_streamline :=
      nb_properties self / nb_streamlines self in
    header ← setfield Field.NB_STREAMLINES
               (Scalar (Int (nb_streamlines self))) (header self);
    header ← setfield Field.NB_SCALARS_PER_POINT
               (Scalar (Int nb_scalars_per_point)) header;
    header ← setfield Field.NB_PROPERTIES_PER_STREAMLINE
               (Scalar (Int nb_properties_per_streamline)) header;
    file ← seek (beginning self) SEEK_SET file;
    let file := write (tostring native_code header_2_dtd header) file in
    Return (Make header (nb_streamlines self) (nb_points self)
                 (nb_scalars self) (nb_properties self) (beginning self),
            file).

(** [writer.write(streamlines)]: the writer afterwards, or the exception
    raised, and the file object as it is left. *)
Definition write (native_code : byte_order) (self : t) (file : fileobj)
    (streamlines : list triple) : res t * fileobj :=
  match write_loop native_code self file streamlines with
  | (Raise e, file) => (Raise e, file)
  | (Return self, file) =>
      match finish native_code self file with
      | Raise e => (Raise e, file)
      | Return (self, file) => (Return self, file)
      end
  end.

End TrkWriter.

(** ** The format class *)

Module TrkFile.

(** [TrkFile.is_correct_format(fileobj)] *)
Definition is_correct_format (f : fileobj) : res (bool * fileobj) :=
  let '(magic_number, f) := read 5 f in
  f ← seek (-5) SEEK_CUR f;
  Return (bool_decide (magic_number = MAGIC_NUMBER), f).

Section external.

(** [np.allclose] on two affines. *)
Variable allclose : value -> value -> bool.

(** The header of a container just built by [Streamlines(...)] or
    [LazyStreamlines.create_from_data(...)]. *)
Variable new_header : StreamlinesHeader.t.

(** The assignments of [load] to [streamlines.header]. *)
Definition set_header (affine : value) (trk_header : gmap Field.t value)
  : res StreamlinesHeader.t :=
  count ← getint trk_header Field.NB_STREAMLINES;
  Return (StreamlinesHeader.Make
            affine
            (if 0 <? count then Some count
             else StreamlinesHeader.nb_streamlines new_header)
            (StreamlinesHeader.nb_scalars_per_point new_header)
            (StreamlinesHeader.nb_properties_per_streamline new_header)
            (StreamlinesHeader.voxel_sizes new_header)
            (StreamlinesHeader.voxel_order new_header)
            trk_header).

(** What [load] does with a reader: [ref] is the affine of the reference,
    when one is given. *)
Definition load_from (trk_reader : TrkReader.t) (f : fileobj)
    (ref : option value) (lazy_load : bool)
  : option (res ((Streamlines.t + LazyStreamlines.t) * fileobj)) :=
  match
    (affine ← getitem (TrkReader.header trk_reader) Field.to_world_space;
     match ref with
     | None => Return affine
     | Some affine =>
         recorded ← getitem (TrkReader.header trk_reader) Field.to_world_space;
         if allclose affine recorded then Return affine else Raise ValueError
     end)
  with
  | Raise e => Some (Raise e)
  | Return affine =>
      if lazy_load then
        Some (nb_scalars ← getint (TrkReader.header trk_reader)
                             Field.NB_SCALARS_PER_POINT;
              nb_properties ← getint (TrkReader.header trk_reader)
                                Field.NB_PROPERTIES_PER_STREAMLINE;
              hdr ← set_header affine (TrkReader.header trk_reader);
              Return (inr (LazyStreamlines.Make trk_reader
                             (bool_decide (nb_scalars = 0))
                             (bool_decide (nb_properties = 0)) hdr), f))
      else
        '(data, out) ← TrkReader.__iter__ trk_reader f;
        Some ('(trk_reader, f) ← out;
              nb_scalars ← getint (TrkReader.header trk_reader)
                             Field.NB_SCALARS_PER_POINT;
              nb_properties ← getint (TrkReader.header trk_reader)
                                Field.NB_PROPERTIES_PER_STREAMLINE;
              hdr ← set_header affine (TrkReader.header trk_reader);
              Return (inl (Streamlines.Make
                             ((fun s : triple => s.1.1) <$> data)
                             (if decide (nb_scalars = 0) then []
                              else (fun s : triple => s.1.2) <$> data)
                             (if decide (nb_properties = 0) then []
                              else (fun s : triple => s.2) <$> data)
                             hdr), f))
  end.

(** [TrkFile.load(fileobj, ref, lazy_load)] *)
Definition load (native_code : byte_order) (file : fileobj)
    (ref : option value) (lazy_load : bool)
  : option (res ((Streamlines.t + LazyStreamlines.t) * fileobj)) :=
  match TrkReader.__init__ native_code file with
  | Raise e => Some (Raise e)
  | Return (trk_reader, f) => load_from trk_reader f ref lazy_load
  end.

End external.

(** [TrkFile.save(streamlines, fileobj, ref)] for an in-memory container. *)
Definition save (native_code : byte_order) (streamlines : Streamlines.t)
    (file : fileobj) (ref : option value) : res TrkWriter.t * fileobj :=
  let hdr := Streamlines.header streamlines in
  let hdr :=
    match ref with
    | None => hdr
    | Some affine =>
        StreamlinesHeader.Make affine
          (StreamlinesHeader.nb_streamlines hdr)
          (StreamlinesHeader.nb_scalars_per_point hdr)
          (StreamlinesHeader.nb_properties_per_streamline hdr)
          (StreamlinesHeader.voxel_sizes hdr)
          (StreamlinesHeader.voxel_order hdr)
          (StreamlinesHeader.extra hdr)
    end in
  match TrkWriter.__init__ native_code file hdr with
  | Raise e => (Raise e, file)
  | Return (trk_writer, file) =>
      TrkWriter.write native_code trk_writer file
        (Streamlines.__iter__ streamlines)
  end.

End TrkFile.

(** ** Vocabulary of the statements *)

(** A streamline record as it lies in a file read in the byte order [e]
    with [nb_scalars] scalars per point and [nb_properties] properties per
    streamline: a point count [n >= 0], [n * (3 + nb_scalars)] float32
    values, [nb_properties] float32 values. *)
Definition streamline_record (e : byte_order) (nb_scalars nb_properties : Z)
    (bs : list byte) : bool :=
  let n := decode_int e (take 4 bs) in
  bool_decide (0 <= n /\
               Z.of_nat (length bs) = 4 + n * (3 + nb_scalars) * 4 + nb_properties * 4).

(** The header of [self] has the counts [nb_scalars] and [nb_properties]
    and three voxel sizes. *)
Definition readable (self : TrkReader.t) (nb_scalars nb_properties : Z) : Prop :=
  getint (TrkReader.header self) Field.NB_SCALARS_PER_POINT = Return nb_scalars /\
  getint (TrkReader.header self) Field.NB_PROPERTIES_PER_STREAMLINE = Return nb_properties /\
  exists a b c,
    getfloats (TrkReader.header self) Field.VOXEL_SIZES = Return [a; b; c].

(** The bound [nb_streamlines] of the loop lets it reach the count [j]. *)
Definition covers (nb_streamlines : option Z) (j : Z) : Prop :=
  match nb_streamlines with
  | None => True
  | Some n => j <= n
  end.

(** The item of the field [k] in a record with the layout [dtd]. *)
Fixpoint field_value (e : byte_order) (dtd : list descr) (bs : list byte)
    (k : Field.t) : option value :=
  match dtd with
  | [] => None
  | (k', c, shape) :: rest =>
      let n := descr_size (k', c, shape) in
      if decide (k' = k) then Some (parse_value e c shape (take n bs))
      else field_value e rest (drop n bs) k
  end.

(** The mapping [TrkReader.__init__] builds from a header string, before
    the default voxel order is filled in. *)
Definition header_dict (e : byte_order) (dtd : list descr) (s : list byte)
  : gmap Field.t value :=
  dict_zip (names dtd) (parse_items e dtd s).

(** The stream ends inside a record: the count field is cut short, or the
    count is whole and the points and properties of the record need more
    bytes than are left. *)
Definition truncated_record (e : byte_order) (nb_scalars nb_properties : Z)
    (tl : list byte) : Prop :=
  (0 < length tl < 4)%nat \/
  (4 <= length tl)%nat /\
  0 <= decode_int e (take 4 tl) /\
  Z.of_nat (length tl) - 4
    < decode_int e (take 4 tl) * (3 + nb_scalars) * 4 + nb_properties * 4.

(** What [__iter__] raises on such a stream: [struct.unpack] refuses the
    short count, [np.ndarray] the short buffer of points, [np.fromstring]
    the short string of properties.  The module has no exception class of
    its own for truncated data. *)
Definition truncation_error (e : byte_order) (nb_scalars : Z) (tl : list byte)
  : exn :=
  if decide (length tl < 4)%nat then struct_error
  else if Z.of_nat (length tl) - 4
          <? decode_int e (take 4 tl) * (3 + nb_scalars) * 4
  then TypeError
  else ValueError.

(** ** Sample files *)

Definition default_header : gmap Field.t value :=
  match TrkWriter.create_empty_header with
  | Return header => header
  | Raise _ => ∅
  end.

(** A version-2 header in the byte order [e] declaring [count]
    streamlines, everything else as [create_empty_header] has it. *)
Definition sample_header (e : byte_order) (count : Z) : list byte :=
  tostring e header_2_dtd
    (<[Field.NB_STREAMLINES := Scalar (Int count)]> default_header).

(** A record without scalars or properties, its points given by integer
    coordinates. *)
Definition sample_record (e : byte_order) (pts : list (list Z)) : list byte :=
  encode_int e 4 (Z.of_nat (length pts))
  ++ concat ((fun p : list Z => concat (encode_f4 e ∘ f4_of_Z <$> p)) <$> pts).

Definition sample_records : list (list byte) :=
  [ sample_record LittleEndian [[1; 1; 1]; [5; 5; 5]];
    sample_record LittleEndian [[2; 0; 4]] ].

(** A little-endian file declaring [count] streamlines and holding two,
    followed by [tl]. *)
Definition sample_file (count : Z) (tl : list byte) : fileobj :=
  FileObj (sample_header LittleEndian count ++ concat sample_records ++ tl) 0.

Definition no_reader : TrkReader.t := TrkReader.Make ∅ LittleEndian 0.

(** The reader of a sample file and the file object as [__init__] leaves
    it, on a little-endian machine. *)
Definition sample_reader (count : Z) (tl : list byte) : TrkReader.t * fileobj :=
  match TrkReader.__init__ LittleEndian (sample_file count tl) with
  | Return r => r
  | Raise _ => (no_reader, sample_file count tl)
  end.

(** A full traversal of the reader of a sample file: what it yields and
    how it ends. *)
Definition sample_traversal (count : Z) (tl : list byte)
  : option (list triple * res (TrkReader.t * fileobj)) :=
  TrkReader.__iter__ (sample_reader count tl).1 (sample_reader count tl).2.

Definition sample_streamlines (count : Z) (tl : list byte) : list triple :=
  match sample_traversal count tl with
  | Some (streamlines, _) => streamlines
  | None => []
  end.

Definition sample_end (count : Z) (tl : list byte) : TrkReader.t * fileobj :=
  match sample_traversal count tl with
  | Some (_, Return r) => r
  | _ => (no_reader, sample_file count tl)
  end.

(** The version field as [__init__] first reads it: with the version-2
    layout and in the machine's byte order. *)
Definition native_version (native_code : byte_order) (s : list byte)
  : option value :=
  void_field (NpVoid header_2_dtd native_code s) Field.version.

(** Two bytes where a point count should be. *)
Definition short_count : list byte := [x02; x00].

(** A count of three points followed by eight bytes. *)
Definition short_points : list byte :=
  encode_int LittleEndian 4 3 ++ replicate 8 x00.

(** A file of thirteen bytes with the cursor three bytes before its end. *)
Definition short_source : fileobj :=
  FileObj (replicate 10 x00 ++ ["T"; "R"; "A"]%byte) 10.

(** The header of a container with cubic voxels of side [voxel] and
    [nb_scalars] scalars per point, in LPS order, with no extra fields. *)
Definition container_header (voxel nb_scalars : Z) : StreamlinesHeader.t :=
  StreamlinesHeader.Make eye4 None nb_scalars 0
    (f4_of_Z <$> [voxel; voxel; voxel]) ["L"; "P"; "S"]%byte ∅.

Definition point (x y z : Z) : list spec_float := f4_of_Z <$> [x; y; z].

(** One streamline through (0,0,0) and (2,2,2), voxels of side 2. *)
Definition two_points : Streamlines.t :=
  Streamlines.Make [[point 0 0 0; point 2 2 2]] [] [] (container_header 2 0).

(** Two streamlines of one point, with [a] and [b] scalars at the point. *)
Definition scalars_per_point (a b : nat) : Streamlines.t :=
  Streamlines.Make
    [[point 0 0 0]; [point 1 1 1]]
    [[replicate a (f4_of_Z 7)]; [replicate b (f4_of_Z 7)]]
    [] (container_header 1 0).

Definition no_streamlines : Streamlines.t :=
  Streamlines.Make [] [] [] (container_header 1 0).

(** The header [TrkWriter.__init__] writes first for [container_header 1 0]. *)
Definition placeholder (e : byte_order) : list byte :=
  tostring e header_2_dtd
    (<[Field.VOXEL_ORDER := Scalar (Bytes ["L"; "P"; "S"]%byte)]> default_header).

(** A version-1 header in the byte order [e]: the fields of the default
    header laid out by [header_1_dtd], the version set to 1. *)
Definition version_1_header (e : byte_order) : list byte :=
  tostring e header_1_dtd (<[Field.version := Scalar (Int 1)]> default_header).

(** -1/2 and 3/2 *)
Definition minus_half : spec_float := f4_div (f4_of_Z (-1)) (f4_of_Z 2).
Definition three_halves : spec_float := f4_div (f4_of_Z 3) (f4_of_Z 2).

(** The same streamline with voxels of side 1. *)
Definition two_points_unit : Streamlines.t :=
  Streamlines.Make [[point 0 0 0; point 2 2 2]] [] [] (container_header 1 0).

(** The file [save] makes of a container, on a machine of byte order [e]. *)
Definition saved (e : byte_order) (streamlines : Streamlines.t) : fileobj :=
  FileObj (contents (TrkFile.save e streamlines (FileObj [] 0) None).2) 0.

(** A little-endian file whose header declares one scalar per point and
    two properties per streamline, with one record of one point: the
    point (1,2,3) with the scalar 9, then the properties 7 and 8. *)
Definition annotated_file : fileobj :=
  FileObj
    (tostring LittleEndian header_2_dtd
       (<[Field.NB_SCALARS_PER_POINT := Scalar (Int 1)]>
          (<[Field.NB_PROPERTIES_PER_STREAMLINE := Scalar (Int 2)]>
             default_header))
     ++ encode_int LittleEndian 4 1
     ++ concat (encode_f4 LittleEndian ∘ f4_of_Z <$> [1; 2; 3; 9; 7; 8]))
    0.

(** * Properties *)

(** ** File objects *)

Lemma remaining_advance (f : fileobj) (a b : list byte) :
  0 <= position f ->
  remaining f = a ++ b ->
  remaining (FileObj (contents f) (position f + Z.of_nat (length a))) = b.
Proof.
  unfold remaining. cbn [contents position]. intros Hp H.
  rewrite Z2Nat.inj_add, Nat2Z.id by lia.
  rewrite <- drop_drop, H. by rewrite drop_app_length.
Qed.

Lemma read_prefix (n : Z) (f : fileobj) (a b : list byte) :
  remaining f = a ++ b ->
  n = Z.of_nat (length a) ->
  read n f = (a, FileObj (contents f) (position f + Z.of_nat (length a))).
Proof.
  intros H ->. unfold read.
  destruct (Z.ltb_spec (Z.of_nat (length a)) 0) as [?|_]; [lia|].
  rewrite H, Nat2Z.id, take_app_length. done.
Qed.

(** A read at the end of the file returns nothing. *)
Lemma read_eof (n : Z) (f : fileobj) :
  remaining f = [] -> read n f = ([], FileObj (contents f) (position f + 0)).
Proof.
  intros H. unfold read. rewrite H. by destruct (n <? 0); rewrite ?take_nil.
Qed.

(** A read of more than what is left returns what is left. *)
Lemma read_short (n : Z) (f : fileobj) :
  Z.of_nat (length (remaining f)) <= n ->
  read n f = (remaining f,
              FileObj (contents f) (position f + Z.of_nat (length (remaining f)))).
Proof.
  intros H. unfold read.
  destruct (Z.ltb_spec n 0) as [?|_]; [lia|].
  rewrite take_ge by lia. done.
Qed.

(** ** One record *)

Lemma bind_Return {A B} (a : A) (k : A -> res B) : (Return a ≫= k) = k a.
Proof. reflexivity. Qed.

Lemma streamline_record_split e nb_scalars nb_properties bs :
  streamline_record e nb_scalars nb_properties bs = true ->
  0 <= nb_scalars -> 0 <= nb_properties ->
  exists cnt body props,
    bs = cnt ++ body ++ props /\
    length cnt = 4%nat /\
    0 <= decode_int e cnt /\
    Z.of_nat (length body) = decode_int e cnt * (3 + nb_scalars) * 4 /\
    Z.of_nat (length props) = nb_properties * 4.
Proof.
  unfold streamline_record. intros H HS HP.
  apply bool_decide_eq_true in H as [Hn Hlen].
  set (n := decode_int e (take 4 bs)) in *.
  set (m := Z.to_nat (n * (3 + nb_scalars) * 4)).
  exists (take 4 bs), (take m (drop 4 bs)), (drop m (drop 4 bs)).
  assert (0 <= n * (3 + nb_scalars) * 4) by nia.
  assert (4 <= length bs)%nat by lia.
  rewrite !take_drop. rewrite !length_take, !length_drop.
  repeat split; try done; try lia.
Qed.

Lemma read_streamline_record self nb_scalars nb_properties f bs rest :
  readable self nb_scalars nb_properties ->
  0 <= nb_scalars -> 0 <= nb_properties ->
  0 <= position f ->
  streamline_record (TrkReader.endianness self) nb_scalars nb_properties bs = true ->
  remaining f = bs ++ rest ->
  exists streamline,
    TrkReader.read_streamline self nb_scalars nb_properties f
    = Return (Some streamline,
              FileObj (contents f) (position f + Z.of_nat (length bs))).
Proof.
  intros (_ & _ & a & b & c & Hvox) HS HP Hpos Hrec Hrem.
  destruct (streamline_record_split _ _ _ _ Hrec HS HP)
    as (cnt & body & props & -> & Hcnt & Hn & Hbody & Hprops).
  set (n := decode_int (TrkReader.endianness self) cnt) in *.
  unfold TrkReader.read_streamline.
  rewrite <- !app_assoc in Hrem.
  rewrite (read_prefix 4 f cnt _ Hrem) by lia.
  rewrite Hcnt. destruct (decide (4%nat = 0%nat)) as [?|_]; [lia|].
  unfold unpack_i. rewrite decide_True by done. rewrite bind_Return. fold n.
  pose proof (remaining_advance f cnt _ Hpos Hrem) as Hrem1.
  rewrite Hcnt in Hrem1.
  set (f1 := FileObj (contents f) (position f + Z.of_nat 4)) in *.
  rewrite (read_prefix _ f1 body _ Hrem1) by lia.
  assert (0 <= position f1) as Hpos1 by (cbn; lia).
  pose proof (remaining_advance f1 body _ Hpos1 Hrem1) as Hrem2.
  cbn [contents position f1] in Hrem2 |- *.
  set (f2 := FileObj (contents f) (position f + Z.of_nat 4 + Z.of_nat (length body))) in *.
  unfold ndarray.
  destruct (Z.ltb_spec n 0) as [?|_]; [lia|].
  destruct (Z.ltb_spec (3 + nb_scalars) 0) as [?|_]; [lia|].
  cbn [orb].
  destruct (Z.ltb_spec (Z.of_nat (length body)) (n * (3 + nb_scalars) * 4)) as [?|_]; [lia|].
  rewrite bind_Return.
  assert (exists properties,
    (if 0 <? nb_properties
     then let '(buf, f0) := read (nb_properties * 4) f2 in
          properties ← fromstring_f4 (TrkReader.endianness self) nb_properties buf;
          Return (properties, f0)
     else Return ([], f2))
    = Return (properties,
              FileObj (contents f) (position f + Z.of_nat (length (cnt ++ body ++ props)))))
    as [properties Hp].
  { assert (position f + Z.of_nat 4 + Z.of_nat (length body) + Z.of_nat (length props)
            = position f + Z.of_nat (length (cnt ++ body ++ props))) as <-.
    { rewrite !length_app. lia. }
    destruct (Z.ltb_spec 0 nb_properties).
    - rewrite (read_prefix _ f2 props rest Hrem2) by lia.
      unfold fromstring_f4.
      destruct (Z.ltb_spec (Z.of_nat (length props)) (nb_properties * 4)) as [?|_]; [lia|].
      rewrite bind_Return. eauto.
    - exists []. do 2 f_equal. unfold f2. f_equal. lia. }
  destruct (Z.ltb_spec 0 nb_scalars).
  - rewrite Hp, bind_Return, Hvox, bind_Return.
    unfold broadcast at 1. rewrite decide_True by done. rewrite bind_Return.
    rewrite bind_Return. unfold broadcast_inplace, broadcast.
    rewrite decide_True by done. rewrite bind_Return.
    rewrite decide_True by done. rewrite bind_Return.
    eapply ex_intro; reflexivity.
  - assert (nb_scalars = 0) as -> by lia.
    rewrite Hp, bind_Return, Hvox, bind_Return.
    unfold broadcast at 1. rewrite decide_True by done. rewrite bind_Return.
    rewrite bind_Return. unfold broadcast_inplace, broadcast.
    rewrite decide_True by done. rewrite bind_Return.
    rewrite decide_True by done. rewrite bind_Return.
    eapply ex_intro; reflexivity.
Qed.

(** ** The loop of [__iter__] *)

Lemma fileobj_same (f : fileobj) : FileObj (contents f) (position f + 0) = f.
Proof. destruct f. cbn. f_equal. lia. Qed.

Lemma loop_records self nb_scalars nb_properties bound recs rest :
  readable self nb_scalars nb_properties ->
  0 <= nb_scalars -> 0 <= nb_properties ->
  Forall (fun bs => streamline_record (TrkReader.endianness self)
                      nb_scalars nb_properties bs = true) recs ->
  forall fuel i f,
    0 <= position f ->
    remaining f = concat recs ++ rest ->
    covers bound (i + Z.of_nat (length recs)) ->
    exists streamlines,
      length streamlines = length recs /\
      TrkReader.loop (length recs + fuel) self nb_scalars nb_properties bound i f
      = ('(more, out) ←
           TrkReader.loop fuel self nb_scalars nb_properties bound
             (i + Z.of_nat (length recs))
             (FileObj (contents f)
                      (position f + Z.of_nat (length (concat recs))));
         Some (streamlines ++ more, out)).
Proof.
  intros Hself HS HP Hrecs. induction Hrecs as [|bs recs Hbs _ IH];
    intros fuel i f Hpos Hrem Hcov.
  - exists []. split; [done|]. cbn [length concat Nat.add].
    rewrite Z.add_0_r, fileobj_same.
    destruct (TrkReader.loop _ _ _ _ _ _ _) as [[more out]|]; reflexivity.
  - cbn [concat] in Hrem. rewrite <- app_assoc in Hrem.
    destruct (read_streamline_record self _ _ f bs _ Hself HS HP Hpos Hbs Hrem)
      as [s Hs].
    pose proof (remaining_advance f bs _ Hpos Hrem) as Hrem'.
    set (f' := FileObj (contents f) (position f + Z.of_nat (length bs))) in *.
    destruct (IH fuel (i + 1) f') as (ss & Hlen & Hloop).
    { cbn. lia. }
    { done. }
    { destruct bound; cbn in *; lia. }
    exists (s :: ss). split; [cbn; lia|].
    cbn [length Nat.add TrkReader.loop].
    assert (TrkReader.below i bound = true) as ->.
    { destruct bound; cbn in *; [apply Z.ltb_lt|]; lia. }
    rewrite Hs. rewrite Hloop. clear Hloop.
    replace (i + 1 + Z.of_nat (length recs))
      with (i + Z.of_nat (S (length recs))) by lia.
    replace (FileObj (contents f') (position f' + Z.of_nat (length (concat recs))))
      with (FileObj (contents f)
              (position f + Z.of_nat (length (concat (bs :: recs))))).
    2:{ cbn. rewrite length_app. f_equal. lia. }
    destruct (TrkReader.loop _ _ _ _ _ _ _) as [[more out]|]; reflexivity.
Qed.

(** At the end of the file the loop stops, and leaves the cursor there. *)
Lemma loop_eof self nb_scalars nb_properties bound fuel i f :
  remaining f = [] ->
  TrkReader.loop (S fuel) self nb_scalars nb_properties bound i f
  = Some ([], Return (i, f)).
Proof.
  intros H. cbn [TrkReader.loop].
  destruct (TrkReader.below i bound); [|done].
  unfold TrkReader.read_streamline. rewrite (read_eof _ _ H), fileobj_same.
  by rewrite decide_True.
Qed.

(** A count field cut short ends the generator with [struct.error]. *)
Lemma loop_short_count self nb_scalars nb_properties bound fuel i f :
  (0 < length (remaining f) < 4)%nat ->
  TrkReader.below i bound = true ->
  TrkReader.loop (S fuel) self nb_scalars nb_properties bound i f
  = Some ([], Raise struct_error).
Proof.
  intros H Hb. cbn [TrkReader.loop]. rewrite Hb.
  unfold TrkReader.read_streamline. rewrite read_short by lia.
  rewrite decide_False by lia.
  unfold unpack_i. rewrite decide_False by lia. done.
Qed.

(** A record whose points need more bytes than are left ends the
    generator with numpy's [TypeError] for a buffer that is too small. *)
Lemma loop_short_data self nb_scalars nb_properties bound fuel i f cnt tl :
  0 <= position f ->
  remaining f = cnt ++ tl ->
  length cnt = 4%nat ->
  0 <= nb_scalars ->
  Z.of_nat (length tl)
    < decode_int (TrkReader.endianness self) cnt * (3 + nb_scalars) * 4 ->
  TrkReader.below i bound = true ->
  TrkReader.loop (S fuel) self nb_scalars nb_properties bound i f
  = Some ([], Raise TypeError).
Proof.
  intros Hpos Hrem Hcnt HS Hshort Hb. cbn [TrkReader.loop]. rewrite Hb.
  unfold TrkReader.read_streamline.
  rewrite (read_prefix 4 f cnt _ Hrem) by lia.
  rewrite decide_False by lia.
  unfold unpack_i. rewrite decide_True by done. rewrite bind_Return.
  set (n := decode_int (TrkReader.endianness self) cnt) in *.
  pose proof (remaining_advance f cnt _ Hpos Hrem) as Hrem1.
  assert (0 < n) by nia.
  rewrite read_short by (rewrite Hrem1; lia).
  rewrite Hrem1. unfold ndarray.
  destruct (Z.ltb_spec n 0) as [?|_]; [lia|].
  destruct (Z.ltb_spec (3 + nb_scalars) 0) as [?|_]; [lia|].
  cbn [orb].
  destruct (Z.ltb_spec (Z.of_nat (length tl)) (n * (3 + nb_scalars) * 4)) as [_|?]; [|lia].
  done.
Qed.

(** A record whose points are whole and whose properties are cut short
    ends the generator with numpy's [ValueError] for a string that is too
    small. *)
Lemma loop_short_properties self nb_scalars nb_properties bound fuel i f
    cnt body tl :
  0 <= position f ->
  remaining f = cnt ++ body ++ tl ->
  length cnt = 4%nat ->
  0 <= nb_scalars ->
  0 <= decode_int (TrkReader.endianness self) cnt ->
  Z.of_nat (length body)
    = decode_int (TrkReader.endianness self) cnt * (3 + nb_scalars) * 4 ->
  Z.of_nat (length tl) < nb_properties * 4 ->
  TrkReader.below i bound = true ->
  TrkReader.loop (S fuel) self nb_scalars nb_properties bound i f
  = Some ([], Raise ValueError).
Proof.
  intros Hpos Hrem Hcnt HS Hn Hbody Hshort Hb. cbn [TrkReader.loop]. rewrite Hb.
  unfold TrkReader.read_streamline.
  rewrite (read_prefix 4 f cnt _ Hrem) by lia.
  rewrite decide_False by lia.
  unfold unpack_i. rewrite decide_True by done. rewrite bind_Return.
  set (n := decode_int (TrkReader.endianness self) cnt) in *.
  pose proof (remaining_advance f cnt _ Hpos Hrem) as Hrem1.
  set (f1 := FileObj (contents f) (position f + Z.of_nat (length cnt))) in *.
  rewrite (read_prefix _ f1 body _ Hrem1) by lia.
  assert (0 <= position f1) as Hpos1 by (cbn; lia).
  pose proof (remaining_advance f1 body _ Hpos1 Hrem1) as Hrem2.
  set (f2 := FileObj (contents f1) (position f1 + Z.of_nat (length body))) in *.
  unfold ndarray.
  destruct (Z.ltb_spec n 0) as [?|_]; [lia|].
  destruct (Z.ltb_spec (3 + nb_scalars) 0) as [?|_]; [lia|].
  cbn [orb].
  destruct (Z.ltb_spec (Z.of_nat (length body)) (n * (3 + nb_scalars) * 4))
    as [?|_]; [lia|].
  rewrite bind_Return.
  destruct (Z.ltb_spec 0 nb_properties) as [_|?]; [|lia].
  rewrite read_short by (rewrite Hrem2; lia).
  rewrite Hrem2. unfold fromstring_f4.
  destruct (Z.ltb_spec (Z.of_nat (length tl)) (nb_properties * 4)) as [_|?]; [|lia].
  by destruct (0 <? nb_scalars).
Qed.

(** ** The header *)

Lemma header_dict_lookup e dtd bs k :
  header_dict e dtd bs !! k = field_value e dtd bs k.
Proof.
  unfold header_dict, dict_zip. revert bs.
  induction dtd as [|[[k' c] shape] dtd IH]; intros bs; [done|].
  cbn [names map parse_items zip zip_with field_value fst snd].
  rewrite list_to_map_cons, lookup_insert. destruct (decide (k' = k)); [done|]. apply IH.
Qed.

Lemma getitem_Some (d : gmap Field.t value) k v :
  d !! k = Some v -> getitem d k = Return v.
Proof. unfold getitem. by intros ->. Qed.

Lemma getitem_None (d : gmap Field.t value) k :
  d !! k = None -> getitem d k = Raise KeyError.
Proof. unfold getitem. by intros ->. Qed.

Lemma chunks_one k s : chunks k 1 s = [take k s].
Proof. reflexivity. Qed.

Lemma fromstring_header e dtd s :
  itemsize dtd = 1000%nat ->
  length s = 1000%nat ->
  fromstring e dtd s = Return [NpVoid dtd e s].
Proof.
  intros Hd Hs. unfold fromstring. rewrite Hd, Hs.
  rewrite decide_True by (apply Nat.Div0.mod_same).
  rewrite Nat.div_same by done. rewrite chunks_one.
  rewrite take_ge by lia. done.
Qed.

Lemma fromstring_empty e dtd : fromstring e dtd [] = Return [].
Proof. unfold fromstring. cbn [length]. by rewrite Nat.Div0.mod_0_l, Nat.Div0.div_0_l. Qed.

Lemma fromstring_short e dtd s :
  itemsize dtd = 1000%nat ->
  (0 < length s < 1000)%nat ->
  fromstring e dtd s = Raise ValueError.
Proof.
  intros Hd Hs. unfold fromstring. rewrite Hd.
  rewrite decide_False; [done|]. rewrite Nat.mod_small by lia. lia.
Qed.

Lemma itemsize_1 : itemsize header_1_dtd = 1000%nat.
Proof. reflexivity. Qed.

Lemma itemsize_2 : itemsize header_2_dtd = 1000%nat.
Proof. reflexivity. Qed.

(** What a successful [__init__] has done: one thousand bytes read, one of
    the two layouts and one of the two byte orders chosen, the size field
    equal to [HEADER_SIZE] in that order, the data offset set to the cursor. *)
Lemma init_spec native file self f :
  TrkReader.__init__ native file = Return (self, f) ->
  exists s dtd,
    s = take 1000 (remaining file) /\ length s = 1000%nat /\
    f = FileObj (contents file) (position file + 1000) /\
    TrkReader.offset_data self = position file + 1000 /\
    (dtd = header_1_dtd /\ native_version native s = Some (Scalar (Int 1)) \/
     dtd = header_2_dtd /\ native_version native s = Some (Scalar (Int 2))) /\
    header_dict (TrkReader.endianness self) dtd s !! Field.hdr_size
      = Some (Scalar (Int HEADER_SIZE)) /\
    (TrkReader.header self = header_dict (TrkReader.endianness self) dtd s \/
     TrkReader.header self
       = <[Field.VOXEL_ORDER := Scalar (Bytes ["L"; "P"; "S"]%byte)]>
           (header_dict (TrkReader.endianness self) dtd s)).
Proof.
  unfold TrkReader.__init__.
  change (Z.of_nat (itemsize header_2_dtd)) with 1000.
  unfold read. change (1000 <? 0) with false. cbv iota.
  change (Z.to_nat 1000) with 1000%nat.
  set (s := take 1000 (remaining file)).
  assert (length s = 0 \/ (0 < length s < 1000) \/ length s = 1000)%nat
    as [Hs|[Hs|Hs]] by (unfold s; rewrite length_take; lia).
  { apply nil_length_inv in Hs. rewrite Hs, fromstring_empty. discriminate. }
  { rewrite (fromstring_short _ _ _ itemsize_2) by done. discriminate. }
  rewrite (fromstring_header _ _ _ itemsize_2 Hs), bind_Return.
  cbn [field_equals fmap list_fmap truth]. rewrite bind_Return.
  fold (native_version native s).
  set (choice dtd :=
         dtd = header_1_dtd /\ native_version native s = Some (Scalar (Int 1)) \/
         dtd = header_2_dtd /\ native_version native s = Some (Scalar (Int 2))).
  assert (forall (hr : res (list np_void)) k,
    (exists dtd, choice dtd /\
                 hr = Return [NpVoid dtd native s]) \/ hr = Raise HeaderError ->
    (hr ≫= k) = Return (self, f) ->
    exists dtd, choice dtd /\
                k [NpVoid dtd native s] = Return (self, f)) as Hsel.
  { intros hr k [(dtd & Hd & ->)| ->]; [|discriminate].
    rewrite bind_Return. eauto. }
  intros H. apply Hsel in H as (dtd & Hd & H); clear Hsel.
  2:{ destruct (bool_decide_reflect (native_version native s = Some (Scalar (Int 1)))).
      - left. exists header_1_dtd. split; [by left|].
        apply fromstring_header; [apply itemsize_1|done].
      - rewrite bind_Return.
        destruct (bool_decide_reflect (native_version native s = Some (Scalar (Int 2))));
          [|by right].
        left. exists header_2_dtd. split; [by right|done]. }
  exists s, dtd. split; [done|]. split; [done|].
  cbn [item0] in H. rewrite bind_Return in H.
  unfold void_items, newbyteorder in H.
  cbn [void_dtd void_order void_data] in H.
  fold (header_dict native dtd s) in H.
  fold (header_dict (swap_order native) dtd s) in H.
  destruct (header_dict native dtd s !! Field.hdr_size) as [size|] eqn:Hsize;
    [|by rewrite (getitem_None _ _ Hsize) in H].
  rewrite (getitem_Some _ _ _ Hsize), bind_Return in H.
  assert (exists e hdr,
    hdr = header_dict e dtd s /\
    hdr !! Field.hdr_size = Some (Scalar (Int HEADER_SIZE)) /\
    (order ← getitem hdr Field.VOXEL_ORDER;
     Return (TrkReader.Make
               (if decide (order = Scalar (Bytes []))
                then <[Field.VOXEL_ORDER := Scalar (Bytes ["L"; "P"; "S"]%byte)]> hdr
                else hdr) e (tell (FileObj (contents file) (position file + Z.of_nat (length s)))),
             FileObj (contents file) (position file + Z.of_nat (length s))))
    = Return (self, f)) as (e & hdr & -> & Hsz & H').
  { destruct (decide (size = _)) as [->|_].
    - rewrite bind_Return in H. eauto.
    - destruct (header_dict (swap_order native) dtd s !! Field.hdr_size)
        as [size'|] eqn:Hsize'; [|by rewrite (getitem_None _ _ Hsize') in H].
      rewrite (getitem_Some _ _ _ Hsize'), bind_Return in H.
      destruct (decide (size' = _)) as [->|_]; [|discriminate].
      rewrite bind_Return in H. unfold swapped_code in H. eauto. }
  clear H. destruct (getitem _ Field.VOXEL_ORDER) as [order|]; [|discriminate].
  rewrite bind_Return in H'. rewrite Hs in H'. injection H' as <- <-.
  cbn [TrkReader.offset_data TrkReader.endianness TrkReader.header tell position].
  repeat split; try done.
  destruct (decide (order = _)); [by right|by left].
Qed.

Lemma getint_Int (d : gmap Field.t value) k z :
  d !! k = Some (Scalar (Int z)) -> getint d k = Return z.
Proof. intros H. unfold getint. by rewrite (getitem_Some _ _ _ H). Qed.

(** Both layouts hold the three counts as integers and three voxel sizes. *)
Lemma header_dict_counts e dtd s :
  dtd = header_1_dtd \/ dtd = header_2_dtd ->
  (exists z, header_dict e dtd s !! Field.NB_SCALARS_PER_POINT = Some (Scalar (Int z))) /\
  (exists z, header_dict e dtd s !! Field.NB_PROPERTIES_PER_STREAMLINE = Some (Scalar (Int z))) /\
  (exists z, header_dict e dtd s !! Field.NB_STREAMLINES = Some (Scalar (Int z))) /\
  (exists a b c, header_dict e dtd s !! Field.VOXEL_SIZES
                 = Some (Array [Float a; Float b; Float c])).
Proof.
  rewrite !header_dict_lookup.
  intros [-> | ->]; repeat split; repeat eexists; reflexivity.
Qed.

Lemma init_readable native file self f :
  TrkReader.__init__ native file = Return (self, f) ->
  exists nb_scalars nb_properties nb_streamlines,
    readable self nb_scalars nb_properties /\
    getint (TrkReader.header self) Field.NB_STREAMLINES = Return nb_streamlines.
Proof.
  intros H. apply init_spec in H as (s & dtd & _ & _ & _ & _ & Hd & _ & Hh).
  destruct (header_dict_counts (TrkReader.endianness self) dtd s)
    as ((S & HS) & (P & HP) & (n & Hn) & (a & b & c & Hv)); [tauto|].
  exists S, P, n. unfold readable.
  destruct Hh as [-> | ->]; rewrite ?lookup_insert_ne by done.
  - repeat split; try (by apply getint_Int).
    exists a, b, c. unfold getfloats. by rewrite (getitem_Some _ _ _ Hv).
  - repeat split; try (apply getint_Int; by rewrite lookup_insert_ne).
    exists a, b, c. unfold getfloats.
    rewrite (getitem_Some _ _ (Array [Float a; Float b; Float c]));
      [done|by rewrite lookup_insert_ne].
Qed.

(** ** Full traversals *)

Lemma records_length e nb_scalars nb_properties recs :
  Forall (fun bs => streamline_record e nb_scalars nb_properties bs = true) recs ->
  0 <= nb_scalars -> 0 <= nb_properties ->
  (length recs <= length (concat recs))%nat.
Proof.
  intros H HS HP. induction H as [|bs recs Hbs _ IH]; [done|].
  cbn [concat length]. rewrite length_app.
  unfold streamline_record in Hbs. apply bool_decide_eq_true in Hbs.
  assert (0 <= decode_int e (take 4 bs) * (3 + nb_scalars) * 4) by nia.
  lia.
Qed.

Lemma prologue_spec self nb_scalars nb_properties nb_streamlines f :
  readable self nb_scalars nb_properties ->
  getint (TrkReader.header self) Field.NB_STREAMLINES = Return nb_streamlines ->
  0 <= TrkReader.offset_data self ->
  TrkReader.prologue self f
  = Return (nb_scalars, nb_properties, TrkReader.loop_bound nb_streamlines,
            FileObj (contents f) (TrkReader.offset_data self)).
Proof.
  intros (HS & HP & _) Hn Hoff. unfold TrkReader.prologue.
  rewrite HS, bind_Return, HP, bind_Return. unfold seek.
  destruct (Z.ltb_spec (TrkReader.offset_data self) 0) as [?|_]; [lia|].
  by rewrite bind_Return, Hn, bind_Return.
Qed.

(** A traversal over a stream that begins with well-formed records yields
    one streamline for each of them, and goes on with what follows. *)
Lemma iter_records self nb_scalars nb_properties nb_streamlines f recs rest :
  readable self nb_scalars nb_properties ->
  0 <= nb_scalars -> 0 <= nb_properties ->
  getint (TrkReader.header self) Field.NB_STREAMLINES = Return nb_streamlines ->
  0 <= TrkReader.offset_data self ->
  drop (Z.to_nat (TrkReader.offset_data self)) (contents f) = concat recs ++ rest ->
  Forall (fun bs => streamline_record (TrkReader.endianness self)
                      nb_scalars nb_properties bs = true) recs ->
  covers (TrkReader.loop_bound nb_streamlines) (Z.of_nat (length recs)) ->
  exists streamlines fuel,
    length streamlines = length recs /\
    TrkReader.__iter__ self f
    = ('(more, out) ←
         TrkReader.loop (S fuel) self nb_scalars nb_properties
           (TrkReader.loop_bound nb_streamlines) (Z.of_nat (length recs))
           (FileObj (contents f)
              (TrkReader.offset_data self + Z.of_nat (length (concat recs))));
       Some (streamlines ++ more,
             '(i, f') ← out; TrkReader.epilogue self (tell f) i f')).
Proof.
  intros Hself HS HP Hn Hoff Hdata Hrecs Hcov.
  unfold TrkReader.__iter__.
  rewrite (prologue_spec _ _ _ _ _ Hself Hn Hoff).
  set (f0 := FileObj (contents f) (TrkReader.offset_data self)).
  assert (length recs <= length (contents f))%nat as Hfuel.
  { pose proof (records_length _ _ _ _ Hrecs HS HP) as Hl.
    apply (f_equal length) in Hdata.
    rewrite length_drop, length_app in Hdata. lia. }
  destruct (loop_records self _ _ (TrkReader.loop_bound nb_streamlines) recs rest
              Hself HS HP Hrecs
              (S (length (contents f) - length recs)) 0 f0)
    as (ss & Hlen & Hloop); [done|done|done|].
  exists ss, (length (contents f) - length recs)%nat. split; [done|].
  cbn [contents f0].
  replace (S (length (contents f)))
    with (length recs + S (length (contents f) - length recs))%nat by lia.
  rewrite Hloop. clear Hloop. cbn [contents position f0]. rewrite Z.add_0_l.
  destruct (TrkReader.loop _ _ _ _ _ _ _) as [[more out]|]; reflexivity.
Qed.

(** With nothing after the records the traversal comes to its end: the
    count is stored and the cursor moved by [start_position]. *)
Lemma iter_complete self nb_scalars nb_properties nb_streamlines f recs :
  readable self nb_scalars nb_properties ->
  0 <= nb_scalars -> 0 <= nb_properties ->
  getint (TrkReader.header self) Field.NB_STREAMLINES = Return nb_streamlines ->
  0 <= TrkReader.offset_data self ->
  0 <= position f ->
  drop (Z.to_nat (TrkReader.offset_data self)) (contents f) = concat recs ->
  Forall (fun bs => streamline_record (TrkReader.endianness self)
                      nb_scalars nb_properties bs = true) recs ->
  covers (TrkReader.loop_bound nb_streamlines) (Z.of_nat (length recs)) ->
  exists streamlines,
    length streamlines = length recs /\
    TrkReader.__iter__ self f
    = Some (streamlines,
            Return (TrkReader.Make
                      (<[Field.NB_STREAMLINES := Scalar (Int (Z.of_nat (length recs)))]>
                         (TrkReader.header self))
                      (TrkReader.endianness self) (TrkReader.offset_data self),
                    FileObj (contents f)
                      (TrkReader.offset_data self
                       + Z.of_nat (length (concat recs)) + position f))).
Proof.
  intros Hself HS HP Hn Hoff Hpos Hdata Hrecs Hcov.
  rewrite <- (app_nil_r (concat recs)) in Hdata.
  destruct (iter_records _ _ _ _ _ _ _ Hself HS HP Hn Hoff Hdata Hrecs Hcov)
    as (ss & fuel & Hlen & ->).
  exists ss. split; [done|].
  rewrite loop_eof.
  2:{ unfold remaining. cbn [position contents].
      rewrite Z2Nat.inj_add, <- drop_drop, Hdata, Nat2Z.id by lia.
      by rewrite app_nil_r, drop_all. }
  cbn. rewrite app_nil_r. unfold TrkReader.epilogue, seek, tell.
  cbn [position contents].
  destruct (Z.ltb_spec (TrkReader.offset_data self
                        + Z.of_nat (length (concat recs)) + position f) 0)
    as [?|_]; [lia|].
  done.
Qed.

(** ** The traversal always ends *)

Lemma read_position n f :
  contents (read n f).2 = contents f /\
  position f <= position (read n f).2 /\
  position (read n f).2 = position f + Z.of_nat (length (read n f).1).
Proof. unfold read. cbn [fst snd contents position]. repeat split; lia. Qed.

(** A turn of the loop that yields a streamline has read the four bytes
    of a count and moved the cursor forward by at least as many. *)
Lemma read_streamline_advances self nb_scalars nb_properties f streamline f' :
  TrkReader.read_streamline self nb_scalars nb_properties f
  = Return (Some streamline, f') ->
  contents f' = contents f /\
  (4 <= length (remaining f))%nat /\
  position f + 4 <= position f'.
Proof.
  unfold TrkReader.read_streamline.
  pose proof (read_position 4 f) as (Hc1 & _ & Hp1).
  assert (length (read 4 f).1 <= length (remaining f))%nat as Hle.
  { unfold read. change (4 <? 0) with false. cbn. rewrite length_take. lia. }
  destruct (read 4 f) as [nb_pts_str f1]. cbn [fst snd] in *.
  destruct (decide (length nb_pts_str = 0%nat)); [discriminate|].
  unfold unpack_i. destruct (decide (length nb_pts_str = 4%nat)) as [H4|];
    [|discriminate].
  rewrite bind_Return.
  set (size := decode_int _ _ * _).
  pose proof (read_position size f1) as (Hc2 & Hp2 & _).
  destruct (read size f1) as [buf f2]. cbn [fst snd] in *.
  destruct (ndarray _ _ _ _) as [data|]; [|discriminate].
  rewrite bind_Return.
  assert (forall (r : res (list spec_float * fileobj)) k,
    (r ≫= k) = Return (Some streamline, f') ->
    (exists p f3, r = Return (p, f3) /\ k (p, f3) = Return (Some streamline, f')))
    as Hbind.
  { intros [[p f3]|] k; [|discriminate]. rewrite bind_Return. eauto. }
  destruct (0 <? nb_scalars).
  all: intros (p & f3 & Hr & H)%Hbind.
  all: assert (contents f3 = contents f2 /\ position f2 <= position f3) as [Hc3 Hp3].
  1,3: destruct (0 <? nb_properties);
       [ pose proof (read_position (nb_properties * 4) f2) as (? & ? & _);
         destruct (read (nb_properties * 4) f2) as [buf' f4];
         destruct (fromstring_f4 _ _ _); [|discriminate];
         rewrite bind_Return in Hr; injection Hr as _ <-; done
       | injection Hr as _ <-; split; [done|lia] ].
  all: destruct (getfloats _ _); [|discriminate].
  all: rewrite bind_Return in H.
  all: destruct (broadcast f4_div _ _ _) as [[cols pts]|]; [|discriminate].
  all: rewrite !bind_Return in H.
  all: destruct (broadcast_inplace _ _ _ _); [|discriminate].
  all: rewrite bind_Return in H; injection H as _ <-.
  all: repeat split; [congruence|lia|lia].
Qed.

Lemma remaining_length (f : fileobj) :
  0 <= position f ->
  length (remaining f) = (length (contents f) - Z.to_nat (position f))%nat.
Proof. intros _. unfold remaining. apply length_drop. Qed.

(** Fuel above the number of bytes left is never used up. *)
Lemma loop_fuel_enough self nb_scalars nb_properties bound fuel :
  forall i f,
    0 <= position f ->
    (length (remaining f) < fuel)%nat ->
    is_Some (TrkReader.loop fuel self nb_scalars nb_properties bound i f).
Proof.
  induction fuel as [|fuel IH]; intros i f Hpos Hfuel; [lia|].
  cbn [TrkReader.loop]. destruct (TrkReader.below i bound); [|by eexists].
  destruct (TrkReader.read_streamline _ _ _ _) as [[[s|] f']|e] eqn:Hs;
    [|by eexists..].
  apply read_streamline_advances in Hs as (Hc & H4 & Hp).
  destruct (IH (i + 1) f') as [[more out] ->]; [lia| |by eexists].
  rewrite remaining_length in * by lia. rewrite Hc. lia.
Qed.

(** [__iter__] is total: the fuel it gives the loop is enough for any file. *)
Lemma iter_total self f : is_Some (TrkReader.__iter__ self f).
Proof.
  unfold TrkReader.__iter__.
  destruct (TrkReader.prologue self f) as [[[[S P] bound] f0]|] eqn:Hp;
    [|by eexists].
  assert (0 <= position f0 /\ contents f0 = contents f) as [Hpos Hc].
  { unfold TrkReader.prologue in Hp.
    destruct (getint _ Field.NB_SCALARS_PER_POINT); [|discriminate].
    rewrite bind_Return in Hp.
    destruct (getint _ Field.NB_PROPERTIES_PER_STREAMLINE); [|discriminate].
    rewrite bind_Return in Hp. unfold seek in Hp.
    destruct (Z.ltb_spec (TrkReader.offset_data self) 0); [discriminate|].
    rewrite bind_Return in Hp.
    destruct (getint _ Field.NB_STREAMLINES); [|discriminate].
    rewrite bind_Return in Hp. injection Hp as _ _ _ <-. done. }
  destruct (loop_fuel_enough self S P bound (Datatypes.S (length (contents f0))) 0 f0)
    as [[more out] ->]; [done| |by eexists].
  rewrite remaining_length by done. lia.
Qed.

(** So is [load]. *)
Lemma load_total allclose new_header native file ref lazy_load :
  is_Some (TrkFile.load allclose new_header native file ref lazy_load).
Proof.
  unfold TrkFile.load.
  destruct (TrkReader.__init__ native file) as [[self f]|]; [|by eexists].
  unfold TrkFile.load_from.
  destruct (_ ≫= _) as [affine|]; [|by eexists].
  destruct lazy_load; [by eexists|].
  destruct (iter_total self f) as [[ss out] ->]. by eexists.
Qed.

(** ** Counts found by the reader *)

Lemma loop_counts self nb_scalars nb_properties bound fuel :
  forall i f streamlines j f',
    TrkReader.loop fuel self nb_scalars nb_properties bound i f
    = Some (streamlines, Return (j, f')) ->
    j = i + Z.of_nat (length streamlines).
Proof.
  induction fuel as [|fuel IH]; intros i f ss j f' H; cbn [TrkReader.loop] in H.
  - destruct (TrkReader.below i bound); [discriminate|].
    injection H as <- <- _. cbn. lia.
  - destruct (TrkReader.below i bound).
    2:{ injection H as <- <- _. cbn. lia. }
    destruct (TrkReader.read_streamline _ _ _ _) as [[[s|] f1]|e].
    + destruct (TrkReader.loop fuel _ _ _ _ _ _) as [[more out]|] eqn:Hl;
        [|discriminate].
      cbn in H. injection H as <- ->.
      apply IH in Hl. cbn [length]. lia.
    + injection H as <- <- _. cbn. lia.
    + discriminate.
Qed.

(** C10: after every full traversal of the reader, whatever count the header
    declared, the header's streamline count is the number of streamlines
    the traversal yielded. *)
Theorem iter_overwrites_count self f streamlines self' f' :
  TrkReader.__iter__ self f = Some (streamlines, Return (self', f')) ->
  TrkReader.header self' !! Field.NB_STREAMLINES
  = Some (Scalar (Int (Z.of_nat (length streamlines)))).
Proof.
  unfold TrkReader.__iter__. intros H.
  destruct (TrkReader.prologue self f) as [[[[S P] bound] f0]|]; [|discriminate].
  destruct (TrkReader.loop _ _ _ _ _ _ _) as [[ss out]|] eqn:Hl; [|discriminate].
  cbn in H. injection H as -> H.
  destruct out as [[i f1]|]; [|discriminate].
  apply loop_counts in Hl. cbn in Hl. subst i.
  rewrite bind_Return in H. unfold TrkReader.epilogue in H.
  destruct (seek _ _ _); [|discriminate].
  rewrite bind_Return in H. injection H as <- _.
  cbn [TrkReader.header]. apply lookup_insert_eq.
Qed.

(** A header declaring five streamlines over a stream of two: the count
    becomes two. *)
Lemma iter_overwrites_count_witness :
  getint (TrkReader.header (sample_reader 5 []).1) Field.NB_STREAMLINES = Return 5 /\
  length (sample_streamlines 5 []) = 2%nat /\
  TrkReader.header (sample_end 5 []).1 !! Field.NB_STREAMLINES
  = Some (Scalar (Int (Z.of_nat (length (sample_streamlines 5 []))))).
Proof.
  split; [reflexivity|]. split; [reflexivity|].
  apply (iter_overwrites_count (sample_reader 5 []).1 (sample_reader 5 []).2
           _ _ (sample_end 5 []).2).
  vm_compute. reflexivity.
Defined.

Lemma forallb_Forall {A} (p : A -> bool) (l : list A) :
  forallb p l = true -> Forall (fun x => p x = true) l.
Proof.
  induction l as [|x l IH]; cbn; [constructor|].
  intros [? ?]%andb_prop. constructor; auto.
Qed.

Lemma getint_inj (d : gmap Field.t value) k a b :
  getint d k = Return a -> getint d k = Return b -> a = b.
Proof. congruence. Qed.

(** What the statements below need of a reader made by [__init__]. *)
Lemma init_facts native file self f nb_scalars nb_properties :
  TrkReader.__init__ native file = Return (self, f) ->
  0 <= position file ->
  getint (TrkReader.header self) Field.NB_SCALARS_PER_POINT = Return nb_scalars ->
  getint (TrkReader.header self) Field.NB_PROPERTIES_PER_STREAMLINE
    = Return nb_properties ->
  readable self nb_scalars nb_properties /\
  0 <= TrkReader.offset_data self /\
  0 <= position f /\
  drop (Z.to_nat (TrkReader.offset_data self)) (contents f) = remaining f.
Proof.
  intros Hinit Hpos HS HP.
  destruct (init_readable _ _ _ _ Hinit) as (S' & P' & n & Hr & _).
  destruct Hr as (HS' & HP' & Hv).
  rewrite (getint_inj _ _ _ _ HS HS'), (getint_inj _ _ _ _ HP HP').
  apply init_spec in Hinit as (s & dtd & _ & _ & -> & -> & _).
  repeat split; try done; cbn; lia.
Qed.

(** A stream of well-formed records that the declared count does not cut
    short is read to its end, and the header's count is their number
    afterwards. *)
Lemma iter_counts_records native file self f nb_scalars nb_properties
    nb_streamlines recs :
  TrkReader.__init__ native file = Return (self, f) ->
  0 <= position file ->
  getint (TrkReader.header self) Field.NB_STREAMLINES = Return nb_streamlines ->
  nb_streamlines = 0 \/ Z.of_nat (length recs) <= nb_streamlines ->
  getint (TrkReader.header self) Field.NB_SCALARS_PER_POINT = Return nb_scalars ->
  getint (TrkReader.header self) Field.NB_PROPERTIES_PER_STREAMLINE
    = Return nb_properties ->
  0 <= nb_scalars -> 0 <= nb_properties ->
  remaining f = concat recs ->
  forallb (streamline_record (TrkReader.endianness self) nb_scalars nb_properties)
          recs = true ->
  exists streamlines self' f',
    TrkReader.__iter__ self f = Some (streamlines, Return (self', f')) /\
    length streamlines = length recs /\
    getint (TrkReader.header self') Field.NB_STREAMLINES
    = Return (Z.of_nat (length recs)).
Proof.
  intros Hinit Hpos Hn Hreach HS HP HS0 HP0 Hrem Hrecs.
  destruct (init_facts _ _ _ _ _ _ Hinit Hpos HS HP) as (Hr & Hoff & Hposf & Hdrop).
  rewrite Hrem in Hdrop. apply forallb_Forall in Hrecs.
  assert (covers (TrkReader.loop_bound nb_streamlines) (Z.of_nat (length recs))) as Hcov.
  { unfold TrkReader.loop_bound. destruct (decide _); cbn; [done|lia]. }
  destruct (iter_complete self _ _ _ f recs Hr HS0 HP0 Hn Hoff Hposf Hdrop Hrecs Hcov)
    as (ss & Hlen & Hiter).
  eexists ss, _, _. split; [exact Hiter|]. split; [done|].
  cbn [TrkReader.header]. apply getint_Int, lookup_insert_eq.
Qed.

(** C8: when the header declares no streamline count and the stream holds
    exactly K well-formed records up to the end of the file, a traversal of
    the reader yields exactly K streamlines and ends normally, and the
    header's streamline count is K afterwards. *)
Theorem iter_discovers_count native file self f nb_scalars nb_properties recs :
  TrkReader.__init__ native file = Return (self, f) ->
  0 <= position file ->
  getint (TrkReader.header self) Field.NB_STREAMLINES = Return 0 ->
  getint (TrkReader.header self) Field.NB_SCALARS_PER_POINT = Return nb_scalars ->
  getint (TrkReader.header self) Field.NB_PROPERTIES_PER_STREAMLINE
    = Return nb_properties ->
  0 <= nb_scalars -> 0 <= nb_properties ->
  remaining f = concat recs ->
  forallb (streamline_record (TrkReader.endianness self) nb_scalars nb_properties)
          recs = true ->
  exists streamlines self' f',
    TrkReader.__iter__ self f = Some (streamlines, Return (self', f')) /\
    length streamlines = length recs /\
    getint (TrkReader.header self') Field.NB_STREAMLINES
    = Return (Z.of_nat (length recs)).
Proof.
  intros Hinit Hpos Hn. eapply iter_counts_records; eauto.
Qed.

(** A file declaring no count and holding two records. *)
Lemma iter_discovers_count_witness :
  exists streamlines self' f',
    TrkReader.__iter__ (sample_reader 0 []).1 (sample_reader 0 []).2
    = Some (streamlines, Return (self', f')) /\
    length streamlines = 2%nat /\
    getint (TrkReader.header self') Field.NB_STREAMLINES = Return 2.
Proof.
  apply (iter_discovers_count LittleEndian (sample_file 0 [])
           (sample_reader 0 []).1 (sample_reader 0 []).2 0 0 sample_records);
    try reflexivity; try lia.
Defined.

(** C4: when the stream ends inside a record that the loop reaches, after K
    well-formed records, the traversal yields the K streamlines and then
    raises: [struct.error] when between one and three bytes are left for the
    point count, numpy's [TypeError] when the count is whole and the points
    need more bytes than are left, numpy's [ValueError] when the properties
    do.  It neither ends normally nor yields a shortened streamline. *)
Theorem iter_truncated native file self f nb_scalars nb_properties
    nb_streamlines recs tl :
  TrkReader.__init__ native file = Return (self, f) ->
  0 <= position file ->
  getint (TrkReader.header self) Field.NB_STREAMLINES = Return nb_streamlines ->
  nb_streamlines = 0 \/ Z.of_nat (length recs) < nb_streamlines ->
  getint (TrkReader.header self) Field.NB_SCALARS_PER_POINT = Return nb_scalars ->
  getint (TrkReader.header self) Field.NB_PROPERTIES_PER_STREAMLINE
    = Return nb_properties ->
  0 <= nb_scalars -> 0 <= nb_properties ->
  remaining f = concat recs ++ tl ->
  forallb (streamline_record (TrkReader.endianness self) nb_scalars nb_properties)
          recs = true ->
  truncated_record (TrkReader.endianness self) nb_scalars nb_properties tl ->
  exists streamlines,
    length streamlines = length recs /\
    TrkReader.__iter__ self f
    = Some (streamlines,
            Raise (truncation_error (TrkReader.endianness self) nb_scalars tl)).
Proof.
  intros Hinit Hpos Hn Hreach HS HP HS0 HP0 Hrem Hrecs Htl.
  destruct (init_facts _ _ _ _ _ _ Hinit Hpos HS HP) as (Hr & Hoff & Hposf & Hdrop).
  rewrite Hrem in Hdrop. apply forallb_Forall in Hrecs.
  assert (covers (TrkReader.loop_bound nb_streamlines) (Z.of_nat (length recs))) as Hcov.
  { unfold TrkReader.loop_bound. destruct (decide _); cbn; [done|lia]. }
  assert (TrkReader.below (Z.of_nat (length recs)) (TrkReader.loop_bound nb_streamlines) = true)
    as Hbelow.
  { unfold TrkReader.loop_bound. destruct (decide _); cbn; [done|]. apply Z.ltb_lt. lia. }
  destruct (iter_records _ _ _ _ _ _ _ Hr HS0 HP0 Hn Hoff Hdrop Hrecs Hcov)
    as (ss & fuel & Hlen & ->).
  exists ss. split; [done|].
  set (fmid := FileObj _ _).
  assert (remaining fmid = tl) as Hmid.
  { unfold remaining, fmid. cbn [position contents].
    rewrite Z2Nat.inj_add, <- drop_drop, Hdrop, Nat2Z.id by lia.
    by rewrite drop_app_length. }
  assert (0 <= position fmid) as Hposm by (unfold fmid; cbn; lia).
  unfold truncation_error. destruct Htl as [Hshort | (Hlong & Hcount & Hdata)].
  - rewrite loop_short_count by (rewrite ?Hmid; done).
    rewrite decide_True by lia. cbn. by rewrite app_nil_r.
  - rewrite decide_False by lia.
    set (n := decode_int (TrkReader.endianness self) (take 4 tl)) in *.
    destruct (Z.ltb_spec (Z.of_nat (length tl) - 4) (n * (3 + nb_scalars) * 4))
      as [Hpts|Hpts].
    + rewrite (loop_short_data _ _ _ _ _ _ fmid (take 4 tl) (drop 4 tl));
        try done.
      * cbn. by rewrite app_nil_r.
      * by rewrite take_drop.
      * rewrite length_take. lia.
      * rewrite length_drop. fold n. lia.
    + set (m := Z.to_nat (n * (3 + nb_scalars) * 4)).
      assert (0 <= n * (3 + nb_scalars) * 4) by nia.
      rewrite (loop_short_properties _ _ _ _ _ _ fmid (take 4 tl)
                 (take m (drop 4 tl)) (drop m (drop 4 tl))); try done.
      * cbn. by rewrite app_nil_r.
      * by rewrite !take_drop.
      * rewrite length_take. lia.
      * rewrite length_take, length_drop. fold n. lia.
      * rewrite !length_drop. lia.
Qed.

(** Two records, then a count field of two bytes; two records, then a count
    of three points with eight bytes after it. *)
Lemma iter_truncated_witness :
  (exists streamlines,
     length streamlines = 2%nat /\
     sample_traversal 0 short_count = Some (streamlines, Raise struct_error)) /\
  (exists streamlines,
     length streamlines = 2%nat /\
     sample_traversal 0 short_points = Some (streamlines, Raise TypeError)).
Proof.
  split.
  - apply (iter_truncated LittleEndian (sample_file 0 short_count)
             (sample_reader 0 short_count).1 (sample_reader 0 short_count).2
             0 0 0 sample_records short_count);
      try reflexivity; try lia.
    left. cbn. lia.
  - apply (iter_truncated LittleEndian (sample_file 0 short_points)
             (sample_reader 0 short_points).1 (sample_reader 0 short_points).2
             0 0 0 sample_records short_points);
      try reflexivity; try lia.
    right. split; [cbn; lia|]. split; [by vm_compute|reflexivity].
Defined.

(** ** The cursor after a traversal *)

(** A traversal that comes to its end leaves the cursor at the end of the
    records plus the position it had at the start: [seek] is given
    [start_position] with [SEEK_CUR]. *)
Lemma iter_cursor native file self f nb_scalars nb_properties nb_streamlines recs :
  TrkReader.__init__ native file = Return (self, f) ->
  0 <= position file ->
  getint (TrkReader.header self) Field.NB_STREAMLINES = Return nb_streamlines ->
  nb_streamlines = 0 \/ Z.of_nat (length recs) <= nb_streamlines ->
  getint (TrkReader.header self) Field.NB_SCALARS_PER_POINT = Return nb_scalars ->
  getint (TrkReader.header self) Field.NB_PROPERTIES_PER_STREAMLINE
    = Return nb_properties ->
  0 <= nb_scalars -> 0 <= nb_properties ->
  remaining f = concat recs ->
  forallb (streamline_record (TrkReader.endianness self) nb_scalars nb_properties)
          recs = true ->
  exists streamlines self' f',
    TrkReader.__iter__ self f = Some (streamlines, Return (self', f')) /\
    length streamlines = length recs /\
    position f' = position f + Z.of_nat (length (concat recs)) + position f /\
    position f' <> position f.
Proof.
  intros Hinit Hpos Hn Hreach HS HP HS0 HP0 Hrem Hrecs.
  destruct (init_facts _ _ _ _ _ _ Hinit Hpos HS HP) as (Hr & Hoff & Hposf & Hdrop).
  rewrite Hrem in Hdrop. apply forallb_Forall in Hrecs.
  assert (covers (TrkReader.loop_bound nb_streamlines) (Z.of_nat (length recs))) as Hcov.
  { unfold TrkReader.loop_bound. destruct (decide _); cbn; [done|lia]. }
  destruct (iter_complete self _ _ _ f recs Hr HS0 HP0 Hn Hoff Hposf Hdrop Hrecs Hcov)
    as (ss & Hlen & Hiter).
  eexists ss, _, _. split; [exact Hiter|]. split; [done|].
  apply init_spec in Hinit as (s & dtd & _ & _ & -> & Ho & _).
  cbn [position] in *. rewrite Ho. lia.
Qed.

(** C7: on the sample file with two records, read from an open file object:
    [__init__] leaves the cursor at 1000, where the traversal begins; the
    traversal ends normally with the cursor at 2044, not at 1000.  A second
    traversal still yields the same streamlines, since each one first seeks
    to the data offset, and moves the cursor again. *)
Theorem iter_does_not_restore_cursor :
  position (sample_reader 0 []).2 = 1000 /\
  sample_traversal 0 [] = Some (sample_streamlines 0 [], Return (sample_end 0 [])) /\
  position (sample_end 0 []).2 = 2044 /\
  TrkReader.__iter__ (sample_end 0 []).1 (sample_end 0 []).2
  = Some (sample_streamlines 0 [],
          Return ((sample_end 0 []).1,
                  FileObj (contents (sample_end 0 []).2) 3088)).
Proof. repeat split; vm_compute; reflexivity. Qed.

(** ** Sniffing *)

(** With five bytes or more after the cursor, the answer is whether they
    are the magic number, and the cursor is where it was. *)
Lemma is_correct_format_spec (f : fileobj) :
  0 <= position f ->
  (5 <= length (remaining f))%nat ->
  TrkFile.is_correct_format f
  = Return (bool_decide (take 5 (remaining f) = MAGIC_NUMBER), f).
Proof.
  intros Hpos Hlen. unfold TrkFile.is_correct_format, read.
  change (5 <? 0) with false. cbv iota. change (Z.to_nat 5) with 5%nat.
  rewrite length_take, Nat.min_l by done. unfold seek. cbn [position contents].
  destruct (Z.ltb_spec (position f + Z.of_nat 5 + -5) 0) as [?|_]; [lia|].
  rewrite bind_Return. do 2 f_equal. destruct f. cbn. f_equal. lia.
Qed.

(** C9: with three bytes after the cursor, [is_correct_format] answers and
    leaves the cursor two bytes before the place it had: it goes back five
    bytes after a read of three.  On an empty file the seek is refused. *)
Theorem is_correct_format_moves_cursor :
  position short_source = 10 /\
  TrkFile.is_correct_format short_source
  = Return (false, FileObj (contents short_source) 8) /\
  TrkFile.is_correct_format (FileObj [] 0) = Raise IOError.
Proof. repeat split. Qed.

(** ** Writing *)

(** C6: [write] on an empty sequence of streamlines, by a writer that has
    written nothing yet, raises [ZeroDivisionError]: the total of scalars is
    divided by a total of zero points.  So does [save] on a container
    without streamlines. *)
Theorem write_nothing_divides_by_zero native header beginning file :
  TrkWriter.write native (TrkWriter.Make header 0 0 0 0 beginning) file []
  = (Raise ZeroDivisionError, file) /\
  (TrkFile.save native no_streamlines (FileObj [] 0) None).1
  = Raise ZeroDivisionError.
Proof. split; [reflexivity|]. destruct native; vm_compute; reflexivity. Qed.

(** The check after the loop: totals that do not divide evenly raise
    [DataError]. *)
Lemma finish_uneven native self file :
  TrkWriter.nb_points self <> 0 ->
  TrkWriter.nb_streamlines self <> 0 ->
  TrkWriter.nb_scalars self `mod` TrkWriter.nb_points self <> 0 \/
  TrkWriter.nb_properties self `mod` TrkWriter.nb_streamlines self <> 0 ->
  TrkWriter.finish native self file = Raise DataError.
Proof.
  intros Hp Hs H. unfold TrkWriter.finish.
  rewrite !decide_False by done.
  destruct (decide (TrkWriter.nb_scalars self `mod` _ ≠ 0)); [done|].
  rewrite decide_True by tauto. done.
Qed.

(** An exception after the loop leaves the file as the loop left it: the
    header is written again only when both checks have passed. *)
Lemma write_raises_after_loop native self file streamlines self' file' e :
  TrkWriter.write_loop native self file streamlines = (Return self', file') ->
  TrkWriter.finish native self' file' = Raise e ->
  TrkWriter.write native self file streamlines = (Raise e, file').
Proof. unfold TrkWriter.write. by intros -> ->. Qed.

(** One streamline with two scalars per point and one with three: [save]
    raises [DataError], and the header in the file is still the one written
    first. *)
Lemma save_two_three_scalars native :
  match TrkFile.save native (scalars_per_point 2 3) (FileObj [] 0) None with
  | (Raise e, file) =>
      e = DataError /\ take 1000 (contents file) = placeholder native
  | (Return _, _) => False
  end.
Proof. destruct native; vm_compute; split; reflexivity. Qed.

(** C5: one streamline with two scalars per point and one with four, one
    point each: [save] raises nothing; six scalars over two points pass the
    check, and the header written back declares three scalars per point. *)
Theorem save_accepts_mixed_scalars native :
  match TrkFile.save native (scalars_per_point 2 4) (FileObj [] 0) None with
  | (Return trk_writer, file) =>
      TrkWriter.header trk_writer !! Field.NB_SCALARS_PER_POINT
      = Some (Scalar (Int 3)) /\
      take 1000 (contents file)
      = tostring native header_2_dtd (TrkWriter.header trk_writer)
  | (Raise _, _) => False
  end.
Proof. destruct native; vm_compute; split; reflexivity. Qed.

(** ** Loading *)

(** A record with a scalar and two properties: the columns are split
    after the third, and the point (1,2,3) in voxels of side 1 is returned
    as (1/2, 3/2, 5/2). *)
Example load_annotated allclose new_header :
  match TrkFile.load allclose new_header LittleEndian annotated_file None false with
  | Some (Return (inl streamlines, _)) =>
      Streamlines.points streamlines
      = [[[f4_div (f4_of_Z 1) (f4_of_Z 2); three_halves;
           f4_div (f4_of_Z 5) (f4_of_Z 2)]]] /\
      Streamlines.scalars streamlines = [[[f4_of_Z 9]]] /\
      Streamlines.properties streamlines = [[f4_of_Z 7; f4_of_Z 8]]
  | _ => False
  end.
Proof. vm_compute. repeat split. Qed.

(** ** Saving, then loading *)

(** With voxels of side 1 the points come back as they were saved. *)
Lemma save_load_unit_voxels allclose new_header native :
  match TrkFile.load allclose new_header native (saved native two_points_unit)
          None false with
  | Some (Return (inl streamlines, _)) =>
      Streamlines.points streamlines = Streamlines.points two_points_unit
  | _ => False
  end.
Proof. destruct native; vm_compute; reflexivity. Qed.

(** C1: voxels of side 2, one streamline through (0,0,0) and (2,2,2), no
    scalars, no properties.  [save] emits the count 2 and the points
    (1,1,1) and (5,5,5); [load] of that file returns the points
    (-1/2,-1/2,-1/2) and (3/2,3/2,3/2), not the points saved: the reader
    divides by the voxel size and then subtracts half the voxel size, where
    the writer had added half the voxel size after multiplying. *)
Theorem save_load_shifts_points allclose new_header native :
  drop 1000 (contents (saved native two_points))
  = encode_int native 4 2
    ++ concat (encode_f4 native <$> point 1 1 1 ++ point 5 5 5) /\
  match TrkFile.load allclose new_header native (saved native two_points)
          None false with
  | Some (Return (inl streamlines, _)) =>
      Streamlines.points streamlines
      = [[[minus_half; minus_half; minus_half];
          [three_halves; three_halves; three_halves]]] /\
      Streamlines.points streamlines <> Streamlines.points two_points
  | _ => False
  end.
Proof.
  destruct native; (split; [vm_compute; reflexivity|]);
    vm_compute; (split; [reflexivity|discriminate]).
Qed.

(** ** Byte order *)

Lemma byte_to_Z_range (b : byte) : 0 <= byte_to_Z b < 256.
Proof. unfold byte_to_Z. pose proof (Byte.to_N_bounded b). lia. Qed.

(** Four bytes that read as 1 or 2 in one order read as neither in the
    other. *)
Lemma swapped_version_differs e (b : list byte) :
  length b = 4%nat ->
  decode_int (swap_order e) b = 1 \/ decode_int (swap_order e) b = 2 ->
  decode_int e b <> 1 /\ decode_int e b <> 2.
Proof.
  intros Hlen.
  destruct b as [|b0 [|b1 [|b2 [|b3 [|]]]]]; try discriminate. clear Hlen.
  unfold decode_int, decode_unsigned, to_signed.
  change (8 * Z.of_nat (length [b0; b1; b2; b3])) with 32.
  change (2 ^ (32 - 1)) with 2147483648. change (2 ^ 32) with 4294967296.
  pose proof (byte_to_Z_range b0). pose proof (byte_to_Z_range b1).
  pose proof (byte_to_Z_range b2). pose proof (byte_to_Z_range b3).
  destruct e; cbn [swap_order in_order rev app le_decode];
    repeat match goal with
           | |- context [?a <? ?b] => destruct (Z.ltb_spec a b)
           end; lia.
Qed.

(** The four bytes of the version field. *)
Lemma native_version_bytes (s : list byte) :
  length s = 1000%nat ->
  exists b, length b = 4%nat /\
            forall e, native_version e s = Some (Scalar (Int (decode_int e b))).
Proof.
  intros Hs. eexists. split; cycle 1.
  - intros e. unfold native_version, void_field, void_items.
    cbn [void_dtd void_order void_data].
    fold (dict_zip (names header_2_dtd) (parse_items e header_2_dtd s)).
    fold (header_dict e header_2_dtd s).
    rewrite header_dict_lookup. reflexivity.
  - rewrite length_take, !length_drop, Hs. reflexivity.
Qed.

(** A header whose version reads as 1 or 2 in the order that is not the
    machine's is refused at the version test, which comes before the test
    of the header size. *)
Lemma init_rejects_swapped_version native file :
  length (take 1000 (remaining file)) = 1000%nat ->
  native_version (swap_order native) (take 1000 (remaining file))
    = Some (Scalar (Int 1)) \/
  native_version (swap_order native) (take 1000 (remaining file))
    = Some (Scalar (Int 2)) ->
  TrkReader.__init__ native file = Raise HeaderError.
Proof.
  intros Hs Hv. unfold TrkReader.__init__.
  change (Z.of_nat (itemsize header_2_dtd)) with 1000.
  unfold read. change (1000 <? 0) with false. cbv iota.
  change (Z.to_nat 1000) with 1000%nat.
  set (s := take 1000 (remaining file)) in *.
  rewrite (fromstring_header _ _ _ itemsize_2 Hs), bind_Return.
  cbn [field_equals fmap list_fmap truth].
  fold (native_version native s).
  destruct (native_version_bytes s Hs) as (b & Hb & Hnv).
  rewrite !Hnv in *.
  destruct (swapped_version_differs native b Hb) as [H1 H2].
  { destruct Hv as [Hv|Hv]; injection Hv; auto. }
  rewrite !bool_decide_eq_false_2 by congruence.
  reflexivity.
Qed.

(** C2: the default header with its numbers in the order that is not the
    machine's, a valid header for a machine of the other order, is refused
    with [HeaderError]: its version reads as 33554432.  The same bytes are
    accepted where that order is the machine's. *)
Theorem init_rejects_swapped_header native :
  TrkReader.__init__ native (FileObj (sample_header (swap_order native) 0) 0)
  = Raise HeaderError /\
  native_version native (sample_header (swap_order native) 0)
  = Some (Scalar (Int 33554432)) /\
  match TrkReader.__init__ (swap_order native)
          (FileObj (sample_header (swap_order native) 0) 0) with
  | Return (self, _) =>
      TrkReader.header self !! Field.version = Some (Scalar (Int 2)) /\
      TrkReader.header self !! Field.hdr_size = Some (Scalar (Int HEADER_SIZE))
  | Raise _ => False
  end.
Proof. destruct native; vm_compute; repeat split. Qed.

(** ** Version 1 *)

Lemma version_1_no_affine e s :
  header_dict e header_1_dtd s !! Field.to_world_space = None.
Proof. rewrite header_dict_lookup. reflexivity. Qed.

(** Every header that [__init__] reads with the version-1 layout makes
    [load] raise [KeyError]: the mapping has no affine to look up. *)
Lemma load_version_1 allclose new_header native file self f ref lazy_load :
  TrkReader.__init__ native file = Return (self, f) ->
  native_version native (take 1000 (remaining file)) = Some (Scalar (Int 1)) ->
  TrkFile.load allclose new_header native file ref lazy_load
  = Some (Raise KeyError).
Proof.
  intros Hinit Hv. unfold TrkFile.load. rewrite Hinit.
  apply init_spec in Hinit as (s & dtd & -> & _ & _ & _ & Hd & _ & Hh).
  destruct Hd as [[-> _]|[_ Hv2]]; [|congruence].
  unfold TrkFile.load_from.
  rewrite (getitem_None (TrkReader.header self) Field.to_world_space); [done|].
  destruct Hh as [-> | ->]; rewrite ?lookup_insert_ne by done;
    apply version_1_no_affine.
Qed.

(** C3: a version-1 header in the machine's byte order.  [__init__] reads
    it with the version-1 layout and succeeds; the header it builds has no
    affine field, and [load] raises [KeyError] instead of returning a
    container with the identity affine. *)
Theorem load_version_1_raises allclose new_header native ref lazy_load :
  match TrkReader.__init__ native (FileObj (version_1_header native) 0) with
  | Return (self, _) =>
      TrkReader.header self !! Field.version = Some (Scalar (Int 1)) /\
      TrkReader.header self !! Field.to_world_space = None
  | Raise _ => False
  end /\
  TrkFile.load allclose new_header native (FileObj (version_1_header native) 0)
    ref lazy_load
  = Some (Raise KeyError).
Proof. destruct native; vm_compute; repeat split. Qed.
